(** * Monthly analytics backend: controllers/transactionController.js

    A shallow embedding of the transaction controller (seeding, monthly
    statistics, price histogram, category breakdown and the combined
    endpoint) together with the parts of JavaScript, Express and the
    MongoDB driver that the controller relies on, followed by the
    properties established about it. *)

From Stdlib Require Import ZArith QArith Lqa List String Ascii Bool Lia.
Import ListNotations.
Local Open Scope string_scope.
Local Open Scope Z_scope.

(** ** The JavaScript fragment used by the controller *)

Module JS.

(** Numbers that occur as years and month indexes: an integer or [NaN].
    [parseInt] only ever yields one of the two. *)
Inductive number := NaN | Num (z : Z).

(** Values found in [req.query] and passed as [selectedMonth]: a missing
    key, a string, or an array / nested object built by the query-string
    parser (carried with its [ToString] image). *)
Inductive value :=
| VUndefined
| VStr (s : string)
| VObj (repr : string).

(** [!v] is false exactly on truthy values. *)
Definition truthy (v : value) : bool :=
  match v with
  | VUndefined => false
  | VStr s => negb (String.eqb s "")
  | VObj _ => true
  end.

Definition truthy_number (n : number) : bool :=
  match n with
  | NaN => false
  | Num z => negb (z =? 0)
  end.

Definition ToString (v : value) : string :=
  match v with
  | VUndefined => "undefined"
  | VStr s => s
  | VObj repr => repr
  end.

(** Strings are held as their UTF-8 bytes.

    White space and line terminators, as [trim] and [parseInt] skip
    them: TAB, LF, VT, FF, CR and SP, which are one byte each, ... *)
Definition is_space (c : ascii) : bool :=
  let n := N_of_ascii c in
  ((9 <=? n) && (n <=? 13) || (n =? 32))%N.

(** ... U+00A0, which is two bytes (C2 A0), ... *)
Definition is_space2 (c c1 : ascii) : bool :=
  ((N_of_ascii c =? 194) && (N_of_ascii c1 =? 160))%N.

(** ... and U+1680 (E1 9A 80), U+2000 to U+200A (E2 80 80 to E2 80 8A),
    U+2028 and U+2029 (E2 80 A8, E2 80 A9), U+202F (E2 80 AF), U+205F
    (E2 81 9F), U+3000 (E3 80 80) and U+FEFF (EF BB BF), which are three
    bytes each. *)
Definition is_space3 (c c1 c2 : ascii) : bool :=
  let n := N_of_ascii c in
  let n1 := N_of_ascii c1 in
  let n2 := N_of_ascii c2 in
  ((n =? 225) && (n1 =? 154) && (n2 =? 128)
   || (n =? 226) && (n1 =? 128)
      && ((128 <=? n2) && (n2 <=? 138) || (n2 =? 168) || (n2 =? 169) || (n2 =? 175))
   || (n =? 226) && (n1 =? 129) && (n2 =? 159)
   || (n =? 227) && (n1 =? 128) && (n2 =? 128)
   || (n =? 239) && (n1 =? 187) && (n2 =? 191))%N.

(** The string without the white space it starts with. *)
Fixpoint trim_start (s : string) : string :=
  match s with
  | EmptyString => EmptyString
  | String c rest =>
      if is_space c then trim_start rest
      else
        match rest with
        | EmptyString => s
        | String c1 rest1 =>
            if is_space2 c c1 then trim_start rest1
            else
              match rest1 with
              | EmptyString => s
              | String c2 rest2 =>
                  if is_space3 c c1 c2 then trim_start rest2 else s
              end
        end
  end.

(** A string of white space only. *)
Definition all_space (s : string) : bool :=
  String.eqb (trim_start s) "".

(** The string without the white space it ends with.  No byte inside a
    character starts a white space character, so the bytes can be walked
    one by one. *)
Fixpoint trim_end (s : string) : string :=
  match s with
  | EmptyString => EmptyString
  | String c rest => if all_space s then EmptyString else String c (trim_end rest)
  end.

(** [String.prototype.trim]. *)
Definition trim (s : string) : string := trim_end (trim_start s).

(** Value of a character as a digit in the given radix. *)
Definition digit_value (radix : Z) (c : ascii) : option Z :=
  let n := Z.of_N (N_of_ascii c) in
  let d :=
    if (48 <=? n) && (n <=? 57) then Some (n - 48)
    else if (97 <=? n) && (n <=? 122) then Some (n - 87)
    else if (65 <=? n) && (n <=? 90) then Some (n - 55)
    else None in
  match d with
  | Some k => if k <? radix then Some k else None
  | None => None
  end.

(** The longest prefix of radix digits, read as an integer; [None] when
    that prefix is empty. *)
Fixpoint parse_digits (radix : Z) (s : string) (acc : option Z) : option Z :=
  match s with
  | EmptyString => acc
  | String c rest =>
      match digit_value radix c with
      | Some d =>
          parse_digits radix rest
            (Some (match acc with Some a => a * radix + d | None => d end))
      | None => acc
      end
  end.

(** [parseInt(string)] with no radix argument: leading white space, an
    optional sign, an optional [0x] / [0X] prefix, then digits.  The
    integer read is kept as it is; where it has more digits than a double
    holds the code's number is its rounding, or an infinity: like the
    integer it is not 0, not [NaN], and a year beyond every date. *)
Definition parseInt_string (input : string) : number :=
  let s := trim_start input in
  let '(sign, s) :=
    match s with
    | String "-" rest => (-1, rest)
    | String "+" rest => (1, rest)
    | _ => (1, s)
    end in
  let '(radix, s) :=
    match s with
    | String "0" (String "x" rest) => (16, rest)
    | String "0" (String "X" rest) => (16, rest)
    | _ => (10, s)
    end in
  match parse_digits radix s None with
  | Some m => Num (sign * m)
  | None => NaN
  end.

Definition parseInt (v : value) : number := parseInt_string (ToString v).

Definition isNaN (n : number) : bool :=
  match n with NaN => true | Num _ => false end.

(** *** Numbers added up

    The sum of the prices is a double: a finite double, which is a
    rational, an infinity or [NaN].  The sign of a zero is not kept (it
    does not show in a JSON body). *)
Inductive double :=
| Finite (q : Q)
| PlusInfinity
| MinusInfinity
| NotANumber.

Coercion Finite : Q >-> double.
Bind Scope Q_scope with double.

(** [num / den] rounded to the nearest integer, a tie going to the even
    one; [num] is not negative and [den] is positive. *)
Definition round_half_even (num den : Z) : Z :=
  let m := num / den in
  let r := num mod den in
  if 2 * r <? den then m
  else if den <? 2 * r then m + 1
  else if Z.even m then m else m + 1.

(** The exponent [e] with [2 ^ e <= a / d < 2 ^ (e + 1)], for positive
    [a] and [d]. *)
Definition binade (a d : Z) : Z :=
  let e0 := Z.log2 a - Z.log2 d in
  let reached :=
    if 0 <=? e0 then d * 2 ^ e0 <=? a else d <=? a * 2 ^ (- e0) in
  if reached then e0 else e0 - 1.

(** The double nearest to a rational (binary64: 53 significant bits,
    the smallest step [2 ^ -1074], ties to even, an infinity from
    [2 ^ 1024] on). *)
Definition to_double (q : Q) : double :=
  let n := Qnum q in
  let d := Z.pos (Qden q) in
  if n =? 0 then Finite 0
  else
    let a := Z.abs n in
    let p := Z.max (binade a d - 52) (-1074) in
    if 0 <=? p then
      let m := round_half_even a (d * 2 ^ p) in
      if 2 ^ 1024 <=? m * 2 ^ p
      then (if 0 <? n then PlusInfinity else MinusInfinity)
      else Finite (Qred ((Z.sgn n * m * 2 ^ p) # 1))
    else
      let m := round_half_even (a * 2 ^ (- p)) d in
      Finite (Qred ((Z.sgn n * m) # Z.to_pos (2 ^ (- p)))).

(** [x + y] on doubles. *)
Definition plus (x y : double) : double :=
  match x, y with
  | NotANumber, _ | _, NotANumber => NotANumber
  | PlusInfinity, MinusInfinity | MinusInfinity, PlusInfinity => NotANumber
  | PlusInfinity, _ | _, PlusInfinity => PlusInfinity
  | MinusInfinity, _ | _, MinusInfinity => MinusInfinity
  | Finite a, Finite b => to_double (a + b)
  end.

(** *** Dates

    A [Date] carries a time value: milliseconds since the epoch, or
    nothing for an Invalid Date. *)
Definition Date := option Z.

Definition msPerDay : Z := 86400000.

(** Day number of 1 January of year [y]. *)
Definition DayFromYear (y : Z) : Z :=
  365 * (y - 1970) + (y - 1969) / 4 - (y - 1901) / 100 + (y - 1601) / 400.

Definition TimeFromYear (y : Z) : Z := msPerDay * DayFromYear y.

Definition DaysInYear (y : Z) : Z :=
  if negb (y mod 4 =? 0) then 365
  else if negb (y mod 100 =? 0) then 366
  else if negb (y mod 400 =? 0) then 365
  else 366.

Definition InLeapYear (y : Z) : Z := DaysInYear y - 365.

(** Days of the year that precede month [m] (0 = January). *)
Definition DaysBeforeMonth (leap m : Z) : Z :=
  match m with
  | 0 => 0
  | 1 => 31
  | 2 => 59 + leap
  | 3 => 90 + leap
  | 4 => 120 + leap
  | 5 => 151 + leap
  | 6 => 181 + leap
  | 7 => 212 + leap
  | 8 => 243 + leap
  | 9 => 273 + leap
  | 10 => 304 + leap
  | _ => 334 + leap
  end.

(** [MakeFullYear]: years 0..99 are read as 1900..1999. *)
Definition MakeFullYear (year : number) : number :=
  match year with
  | NaN => NaN
  | Num y => if (0 <=? y) && (y <=? 99) then Num (1900 + y) else Num y
  end.

(** [MakeDay(year, month, date)]: the day number of the given day,
    months beyond the year carried into the year. *)
Definition MakeDay (year month date : number) : number :=
  match year, month, date with
  | Num y, Num m, Num dt =>
      let ym := y + m / 12 in
      let mn := m mod 12 in
      Num (DayFromYear ym + DaysBeforeMonth (InLeapYear ym) mn + dt - 1)
  | _, _, _ => NaN
  end.

(** [MakeDate(day, 0)] followed by [TimeClip]. *)
Definition TimeClip (day : number) : number :=
  match day with
  | NaN => NaN
  | Num d =>
      let tv := d * msPerDay in
      if Z.abs tv <=? 8640000000000000 then Num tv else NaN
  end.

(** [Date.UTC(year, month, date)]. *)
Definition Date_UTC (year month date : number) : number :=
  TimeClip (MakeDay (MakeFullYear year) month date).

(** [new Date(tv)]. *)
Definition new_Date (tv : number) : Date :=
  match tv with
  | NaN => None
  | Num t => Some t
  end.

(** *** Object literals used as lookup tables

    [obj[key]] on an object literal with numeric values: an own
    property, a member inherited from [Object.prototype] (a function, or
    the prototype itself for [__proto__]), or [undefined]. *)
Inductive property := Own (n : Z) | Inherited | Missing.

Definition object_prototype_keys : list string :=
  [ "constructor"; "__proto__"; "hasOwnProperty"; "isPrototypeOf";
    "propertyIsEnumerable"; "toLocaleString"; "toString"; "valueOf";
    "__defineGetter__"; "__defineSetter__"; "__lookupGetter__";
    "__lookupSetter__" ].

Fixpoint own_property (obj : list (string * Z)) (key : string) : option Z :=
  match obj with
  | [] => None
  | (k, v) :: rest => if String.eqb k key then Some v else own_property rest key
  end.

Definition get_property (obj : list (string * Z)) (key : string) : property :=
  match own_property obj key with
  | Some v => Own v
  | None =>
      if existsb (String.eqb key) object_prototype_keys then Inherited
      else Missing
  end.

(** [!p] is false exactly on truthy properties. *)
Definition truthy_property (p : property) : bool :=
  match p with
  | Own n => negb (n =? 0)
  | Inherited => true
  | Missing => false
  end.

(** [ToNumber]: the inherited members are functions and plain objects. *)
Definition ToNumber (p : property) : number :=
  match p with
  | Own n => Num n
  | Inherited | Missing => NaN
  end.

(** [n - 1] on numbers. *)
Definition minus_one (n : number) : number :=
  match n with NaN => NaN | Num z => Num (z - 1) end.

End JS.

(** ** The record store: models/ProductTransaction.js *)

Module Store.

(** A stored sale record.  [price] is a finite double, held as the
    rational it is; [dateOfSale] is [None] for a record whose timestamp is
    missing or not a date; [sold] is [None] for a record whose flag is
    missing or not a boolean. *)
Record Doc := {
  title : string;
  description : string;
  price : Q;
  category : string;
  dateOfSale : JS.Date;
  sold : option bool;
  image : string
}.

(** A record as fetched from the upstream dump, before the schema is
    applied: a field is [None] when the schema would reject it (absent,
    or not castable to its type).  The [dateOfSale] field is looked at in
    three ways, which need not agree, and is held as what each of them
    makes of it:
    - [raw_date_parse]: [Date.parse] of the field as fetched ([None] for
      [NaN]), which the exported [insertMany] tests;
    - [raw_date_cast]: the time value of the Date the schema casts the
      field to ([None] when the cast fails);
    - [raw_date_reparse]: [Date.parse] of that Date, which the schema's
      validator tests. *)
Record RawDoc := {
  raw_title : option string;
  raw_description : option string;
  raw_price : option Q;
  raw_category : option string;
  raw_date_parse : option Z;
  raw_date_cast : option Z;
  raw_date_reparse : option Z;
  raw_sold : option bool;
  raw_image : option string
}.

(** [isValidDate]: [!isNaN(Date.parse(date))]. *)
Definition isValidDate (date : option Z) : bool :=
  match date with Some _ => true | None => false end.

(** [productTransactionSchema]: every field required and cast to its
    type, the Date that [dateOfSale] is cast to validated by
    [isValidDate]. *)
Definition validate (r : RawDoc) : option Doc :=
  match raw_title r, raw_description r, raw_price r, raw_category r,
        raw_date_cast r, raw_sold r, raw_image r with
  | Some t, Some d, Some p, Some c, Some date, Some s, Some i =>
      if isValidDate (raw_date_reparse r)
      then Some {| title := t; description := d; price := p; category := c;
                   dateOfSale := Some date; sold := Some s;
                   image := i |}
      else None
  | _, _, _, _, _, _, _ => None
  end.

Fixpoint validate_all (data : list RawDoc) : option (list Doc) :=
  match data with
  | [] => Some []
  | r :: rest =>
      match validate r, validate_all rest with
      | Some d, Some ds => Some (d :: ds)
      | _, _ => None
      end
  end.

End Store.

(** ** Effects: the store, the response object and exceptions *)

Module Eff.
Import Store.

(** Exceptions raised along the controller's paths. *)
Inductive Error :=
| JsError (message : string)   (* [throw new Error(message)] *)
| CastError                    (* a query filter holding an Invalid Date *)
| ValidationError              (* a document rejected by the schema *)
| StoreError                   (* the store cannot be reached *)
| NetworkError                 (* the upstream fetch failed *)
| HeadersSent.                 (* a second send on one response *)

(** One bucket of a [$group] stage after [$project]: the grouping key
    and its count. *)
Definition Group := (string * Z)%type.

(** What [getStatistics] hands back to its caller: nothing on the paths
    that fall off the end of the function, the response object on the
    path that returns [res.status(400).json(...)]. *)
Inductive Returned := RetUndefined | RetResponse.

(** [{ data: [...] }] as returned by the price histogram. *)
Record PriceRangeData := { data : list Z }.

(** [{ data: [...] }] as returned by the category breakdown, one
    [{ category, count }] row per group. *)
Record CategoryData := { rows : list Group }.

(** JSON bodies the handlers send. *)
Inductive Body :=
| ErrorBody (error : string)
| MessageBody (message : string)
| StatisticsBody (totalSales : JS.double) (totalSoldItems totalNotSoldItems : Z)
| CombinedBody (statistics : Returned) (priceRangeData : PriceRangeData)
               (categoryData : CategoryData).

(** The Express response: the status set so far, and what went out on
    the wire (status and body) once a body has been sent. *)
Record Response := {
  statusCode : Z;
  sent : option (Z * Body)
}.

Definition fresh_response : Response := {| statusCode := 200; sent := None |}.

(** The world a handler runs in.  [storeCalls] counts the calls made on
    the [ProductTransaction] model. *)
Record World := {
  docs : list Doc;
  storeUp : bool;
  storeCalls : nat;
  res : Response
}.

Inductive Outcome (A : Type) :=
| Return (a : A)
| Throw (e : Error).
Arguments Return {A} a.
Arguments Throw {A} e.

Definition M (A : Type) : Type := World -> Outcome A * World.

Definition ret {A} (a : A) : M A := fun w => (Return a, w).

Definition throw {A} (e : Error) : M A := fun w => (Throw e, w).

Definition bind {A B} (m : M A) (k : A -> M B) : M B :=
  fun w =>
    match m w with
    | (Return a, w') => k a w'
    | (Throw e, w') => (Throw e, w')
    end.

(** [try { body } catch (error) { handler }]. *)
Definition try_catch {A} (body : M A) (handler : Error -> M A) : M A :=
  fun w =>
    match body w with
    | (Return a, w') => (Return a, w')
    | (Throw e, w') => handler e w'
    end.

(** A pure helper that may throw, run inside a handler. *)
Definition lift {A} (o : Outcome A) : M A := fun w => (o, w).

Definition pure_bind {A B} (o : Outcome A) (k : A -> Outcome B) : Outcome B :=
  match o with
  | Return a => k a
  | Throw e => Throw e
  end.

Declare Scope eff_scope.
Delimit Scope eff_scope with eff.
Notation "x <- m ;; k" := (bind m (fun x => k))
  (at level 61, m at next level, right associativity) : eff_scope.
Notation "m ;; k" := (bind m (fun _ => k))
  (at level 61, right associativity) : eff_scope.
Notation "' pat <- m ;; k" := (bind m (fun x => match x with pat => k end))
  (at level 61, pat pattern, m at next level, right associativity) : eff_scope.

(** *** Express *)

(** [res.status(code)]. *)
Definition res_status (code : Z) : M unit :=
  fun w =>
    (Return tt,
     {| docs := docs w; storeUp := storeUp w; storeCalls := storeCalls w;
        res := {| statusCode := code; sent := sent (res w) |} |}).

(** [res.json(body)]: sends the body with the current status; a
    response that was already sent cannot be sent again. *)
Definition res_json (body : Body) : M unit :=
  fun w =>
    match sent (res w) with
    | Some _ => (Throw HeadersSent, w)
    | None =>
        (Return tt,
         {| docs := docs w; storeUp := storeUp w; storeCalls := storeCalls w;
            res := {| statusCode := statusCode (res w);
                      sent := Some (statusCode (res w), body) |} |})
    end.

(** *** The model's query interface *)

Definition called (w : World) : World :=
  {| docs := docs w; storeUp := storeUp w; storeCalls := S (storeCalls w);
     res := res w |}.

Definition with_docs (ds : list Doc) (w : World) : World :=
  {| docs := ds; storeUp := storeUp w; storeCalls := storeCalls w;
     res := res w |}.

(** [dateOfSale: { $gte: startDate, $lt: endDate }]: a record without a
    date matches no range. *)
Definition in_range (startDate endDate : Z) (d : Doc) : bool :=
  match dateOfSale d with
  | Some t => (startDate <=? t) && (t <? endDate)
  | None => false
  end.

(** [sold: flag] as a filter clause. *)
Definition sold_is (flag : bool) (d : Doc) : bool :=
  match sold d with
  | Some b => Bool.eqb b flag
  | None => false
  end.

(** [ProductTransaction.find({ dateOfSale: {$gte, $lt}, sold })]: the
    filter is cast against the schema first, which rejects an Invalid
    Date. *)
Definition find (startDate endDate : JS.Date) (flag : bool) : M (list Doc) :=
  fun w =>
    let w' := called w in
    match startDate, endDate with
    | Some s, Some e =>
        if storeUp w
        then (Return (filter (fun d => in_range s e d && sold_is flag d) (docs w)), w')
        else (Throw StoreError, w')
    | _, _ => (Throw CastError, w')
    end.

(** [ProductTransaction.deleteMany({})]. *)
Definition deleteMany : M unit :=
  fun w =>
    let w' := called w in
    if storeUp w then (Return tt, with_docs [] w') else (Throw StoreError, w').

(** [ProductTransaction.insertMany(data)], ordered: every document is
    validated before anything is written, and one invalid document
    rejects the whole batch. *)
Definition insertMany (data : list RawDoc) : M unit :=
  fun w =>
    let w' := called w in
    match validate_all data with
    | None => (Throw ValidationError, w')
    | Some ds =>
        if storeUp w then (Return tt, with_docs (docs w ++ ds) w')
        else (Throw StoreError, w')
    end.

(** An aggregation pipeline is sent as it is; the driver writes an
    Invalid Date as the epoch. *)
Definition bson_date (d : JS.Date) : Z :=
  match d with Some t => t | None => 0 end.

(** [{ $match: { dateOfSale: { $gte: startDate, $lt: endDate } } }]. *)
Definition match_stage (startDate endDate : JS.Date) (ds : list Doc) : list Doc :=
  filter (in_range (bson_date startDate) (bson_date endDate)) ds.

(** [{ $group: { _id: key, count: { $sum: 1 } } }] over the keys of the
    incoming documents, groups in order of first appearance. *)
Fixpoint count_key (key : string) (groups : list Group) : list Group :=
  match groups with
  | [] => [(key, 1)]
  | (k, c) :: rest =>
      if String.eqb k key then (k, c + 1) :: rest
      else (k, c) :: count_key key rest
  end.

Definition group_stage (keys : list string) : list Group :=
  fold_left (fun groups key => count_key key groups) keys [].

(** [{ $sort: { "_id": 1 } }]: ascending on the key. *)
Fixpoint insert_group (g : Group) (sorted : list Group) : list Group :=
  match sorted with
  | [] => [g]
  | h :: rest =>
      if String.leb (fst g) (fst h) then g :: sorted
      else h :: insert_group g rest
  end.

Definition sort_stage (groups : list Group) : list Group :=
  fold_right insert_group [] groups.

(** [ProductTransaction.aggregate(pipeline)] for a pipeline given as a
    function of the collection. *)
Definition aggregate {A} (pipeline : list Doc -> A) : M A :=
  fun w =>
    let w' := called w in
    if storeUp w then (Return (pipeline (docs w)), w')
    else (Throw StoreError, w').

(** The exported [insertMany] wrapper of the model file: the dates of the
    incoming batch, as fetched, are checked before the model is called. *)
Definition insertMany_checked (data : list RawDoc) : M unit :=
  if forallb (fun transaction => isValidDate (raw_date_parse transaction)) data
  then insertMany data
  else throw (JsError "Invalid date format in one or more transactions.").

(** [Promise.all([a, b, c])]: the three branches all run to their end;
    the result is the three values, or the first rejection.  The branches
    only read the collection and only the first one writes the response,
    so their interleaving is not observable and they are run in turn. *)
Definition Promise_all3 {A B C} (a : M A) (b : M B) (c : M C) : M (A * B * C) :=
  fun w =>
    let '(oa, w1) := a w in
    let '(ob, w2) := b w1 in
    let '(oc, w3) := c w2 in
    match oa, ob, oc with
    | Return x, Return y, Return z => (Return (x, y, z), w3)
    | Throw e, _, _ => (Throw e, w3)
    | _, Throw e, _ => (Throw e, w3)
    | _, _, Throw e => (Throw e, w3)
    end.

End Eff.

(** ** controllers/transactionController.js *)

Module Controller.
Import JS Store Eff.
Local Open Scope eff_scope.

(** [req.query] as far as the handlers read it. *)
Record Request := {
  query_month : value;
  query_year : value
}.

(** What the third-party endpoint answers to [axios.get]. *)
Inductive Upstream :=
| FetchFailed
| NotAnArray
| DataArray (data : list RawDoc).

Definition axios_get (u : Upstream) : M Upstream :=
match u with
| FetchFailed => throw NetworkError
| _ => ret u
end.

Definition seedDatabase (upstream : Upstream) : M unit :=
try_catch
  (response <- axios_get upstream ;;
   match response with
   | DataArray response_data =>
       deleteMany ;;
       insertMany response_data ;;
       res_status 200 ;;
       res_json (MessageBody "Database seeded successfully")
   | _ =>
       res_status 400 ;;
       res_json (ErrorBody "Invalid data format from API")
   end)
  (fun _ =>
     res_status 500 ;;
     res_json (ErrorBody "Error seeding database")).

Definition monthMap : list (string * Z) :=
[ ("Jan", 1); ("Feb", 2); ("Mar", 3); ("Apr", 4); ("May", 5); ("Jun", 6);
  ("Jul", 7); ("Aug", 8); ("Sep", 9); ("Oct", 10); ("Nov", 11); ("Dec", 12) ].

Definition getMonthNumber (month : value) : Outcome property :=
match month with
| VStr s =>
    if negb (truthy month) then Throw (JsError "Invalid month")
    else
      let monthNumber := get_property monthMap (trim s) in
      if negb (truthy_property monthNumber) then Throw (JsError "Invalid month")
      else Return monthNumber
| VUndefined | VObj _ => Throw (JsError "Invalid month")
end.

Record DateRange := {
  startDate : Date;
  endDate : Date
}.

Definition getDateRange (monthNumber : property) (year : number) : Outcome DateRange :=
if isNaN year then Throw (JsError "Invalid year")
else
  Return
    {| startDate := new_Date (Date_UTC year (minus_one (ToNumber monthNumber)) (Num 1));
       endDate := new_Date (Date_UTC year (ToNumber monthNumber) (Num 1)) |}.

Definition getStatistics (req : Request) : M Returned :=
let month := query_month req in
let year := query_year req in
try_catch
  (if negb (truthy month) || negb (truthy year) then
     res_status 400 ;;
     res_json (ErrorBody "Month and Year are required") ;;
     ret RetResponse
   else
     range <- lift (pure_bind (getMonthNumber month)
                      (fun monthNumber => getDateRange monthNumber (parseInt year))) ;;
     soldItems <- find (startDate range) (endDate range) true ;;
     notSoldItems <- find (startDate range) (endDate range) false ;;
     let totalSales :=
       fold_left (fun sum item => plus sum (Finite (price item))) soldItems
                 (Finite 0) in
     res_json (StatisticsBody totalSales
                 (Z.of_nat (List.length soldItems))
                 (Z.of_nat (List.length notSoldItems))) ;;
     ret RetUndefined)
  (fun _ =>
     res_status 500 ;;
     res_json (ErrorBody "Error fetching statistics") ;;
     ret RetUndefined).

Definition priceRangeMapping : list (string * Z) :=
[ ("0-50", 0); ("51-100", 1); ("101-200", 2); ("201-500", 3);
  ("501-1000", 4); ("1001+", 5) ].

(** [$lte] and [$gt] on numbers. *)
Definition lte (a b : Q) : bool := Qle_bool a b.
Definition gt (a b : Q) : bool := negb (Qle_bool a b).

(** The [$switch] of the [$addFields] stage: the first branch whose case
    holds gives the label. *)
Definition priceRange (price : Q) : string :=
if lte price 50 then "0-50"
else if lte price 100 then "51-100"
else if lte price 200 then "101-200"
else if lte price 500 then "201-500"
else if lte price 1000 then "501-1000"
else if gt price 1000 then "1001+"
else "Unknown".

(** The histogram pipeline: [$match], [$addFields], [$group], [$sort],
    [$project]. *)
Definition priceRangePipeline (range : DateRange) (collection : list Doc) : list Group :=
let matched := match_stage (startDate range) (endDate range) collection in
let labelled := map (fun d => (d, priceRange (price d))) matched in
sort_stage (group_stage (map snd labelled)).

(** [Array(6).fill(0)]. *)
Definition zeros : list Z := repeat 0 6.

(** [result[index] = count] for a numeric index: an element below the
    length is replaced; a write past the end lengthens the array (the
    holes read as 0 here; the table above holds no such index). *)
Fixpoint array_set (arr : list Z) (index : nat) (v : Z) : list Z :=
match arr, index with
| [], O => [v]
| [], S i => 0 :: array_set [] i v
| _ :: rest, O => v :: rest
| x :: rest, S i => x :: array_set rest i v
end.

(** The body of the [forEach] callback.  An inherited member used as an
    index names a property of the array and leaves its elements alone. *)
Definition place (result : list Z) (item : Group) : list Z :=
match get_property priceRangeMapping (fst item) with
| Own index => if index <? 0 then result else array_set result (Z.to_nat index) (snd item)
| Inherited => result
| Missing => result
end.

Definition truthy_year (year : option number) : bool :=
match year with
| Some n => truthy_number n
| None => false
end.

Definition year_number (year : option number) : number :=
match year with
| Some n => n
| None => NaN
end.

(** The [try] block of [getPriceRangeData]. *)
Definition getPriceRangeData_try (selectedMonth : value) (year : option number) : M PriceRangeData :=
if negb (truthy selectedMonth) || negb (truthy_year year) then
  ret {| data := zeros |}
else
  range <- lift (pure_bind (getMonthNumber selectedMonth)
                   (fun monthNumber => getDateRange monthNumber (year_number year))) ;;
  productTransactions <- aggregate (priceRangePipeline range) ;;
  let result := fold_left place productTransactions zeros in
  ret {| data := result |}.

Definition getPriceRangeData (selectedMonth : value) (year : option number) : M PriceRangeData :=
try_catch (getPriceRangeData_try selectedMonth year)
          (fun _ => ret {| data := zeros |}).

(** The category pipeline: [$match], [$group], [$project]. *)
Definition categoryPipeline (range : DateRange) (collection : list Doc) : list Group :=
group_stage (map category (match_stage (startDate range) (endDate range) collection)).

(** The [try] block of [getCategoryData]. *)
Definition getCategoryData_try (selectedMonth : value) (year : option number) : M CategoryData :=
if negb (truthy selectedMonth) || negb (truthy_year year) then
  ret {| rows := [] |}
else
  range <- lift (pure_bind (getMonthNumber selectedMonth)
                   (fun monthNumber => getDateRange monthNumber (year_number year))) ;;
  categoryTransactions <- aggregate (categoryPipeline range) ;;
  ret {| rows := categoryTransactions |}.

Definition getCategoryData (selectedMonth : value) (year : option number) : M CategoryData :=
try_catch (getCategoryData_try selectedMonth year)
          (fun _ => ret {| rows := [] |}).

Definition getCombinedData (req : Request) : M unit :=
try_catch
  (let selectedMonth := query_month req in
   let year := parseInt (query_year req) in
   if negb (truthy selectedMonth) || negb (truthy_number year) then
     res_status 400 ;;
     res_json (ErrorBody "Month and Year are required")
   else
     '(statistics, priceRangeData, categoryData) <-
        Promise_all3 (getStatistics req)
                     (getPriceRangeData selectedMonth (Some year))
                     (getCategoryData selectedMonth (Some year)) ;;
     res_json (CombinedBody statistics priceRangeData categoryData))
  (fun _ =>
     res_status 500 ;;
     res_json (ErrorBody "Error fetching combined data")).

End Controller.

(** ** Reading a time value as a calendar date

    The inverse direction of [Date.UTC]: which year, month and day of the
    month a time value falls on, and whether it is the start of its day. *)

Module Calendar.
Import JS.

(** [YearFromTime(t) = y]: [y] is the year whose span holds [t]. *)
Definition year_holds (y t : Z) : bool :=
(TimeFromYear y <=? t) && (t <? TimeFromYear (y + 1)).

(** [DayWithinYear(t)] for a time value of year [y]. *)
Definition DayWithinYear (y t : Z) : Z := t / msPerDay - DayFromYear y.

(** [MonthFromTime], from the day within the year (0 = January). *)
Definition MonthFromDay (leap d : Z) : Z :=
if d <? 31 then 0
else if d <? 59 + leap then 1
else if d <? 90 + leap then 2
else if d <? 120 + leap then 3
else if d <? 151 + leap then 4
else if d <? 181 + leap then 5
else if d <? 212 + leap then 6
else if d <? 243 + leap then 7
else if d <? 273 + leap then 8
else if d <? 304 + leap then 9
else if d <? 334 + leap then 10
else 11.

(** [DateFromTime], from the day within the year. *)
Definition DateFromDay (leap d : Z) : Z :=
d - DaysBeforeMonth leap (MonthFromDay leap d) + 1.

(** Length of month [m] (1 = January) in year [y]. *)
Definition DaysInMonth (y m : Z) : Z :=
match m with
| 2 => 28 + InLeapYear y
| 4 | 6 | 9 | 11 => 30
| _ => 31
end.

(** [t] is 00:00:00.000 UTC on day 1 of month [m] (1 = January) of year
    [y]. *)
Definition first_of_month (y m t : Z) : Prop :=
t mod msPerDay = 0 /\
year_holds y t = true /\
MonthFromDay (InLeapYear y) (DayWithinYear y t) = m - 1 /\
DateFromDay (InLeapYear y) (DayWithinYear y t) = 1.

End Calendar.

(** ** The listing endpoint: listTransactions *)

Module Listing.
Import JS Store Eff.

(** [dateOfSale] as it is serialised in the listing: a date, or [null]. *)
Inductive JsonDate := DateValue (time : Z) | Null.

(** A transaction as the listing returns it. *)
Record Transaction := {
  t_title : string;
  t_description : string;
  t_price : Q;
  t_category : string;
  t_dateOfSale : JsonDate;
  t_sold : option bool;
  t_image : string
}.

(** JSON bodies of the listing handler. *)
Inductive Payload :=
| TransactionList (transactions : list Transaction)
| ErrorPayload (error : string).

(** The response object of a listing request. *)
Record Reply := {
  reply_status : Z;
  reply_sent : option (Z * Payload)
}.

Definition fresh_reply : Reply := {| reply_status := 200; reply_sent := None |}.

(** The listing handler runs against the store and its own response. *)
Definition L (A : Type) : Type := World * Reply -> Outcome A * (World * Reply).

Definition retL {A} (a : A) : L A := fun st => (Return a, st).

Definition bindL {A B} (m : L A) (k : A -> L B) : L B :=
  fun st =>
    match m st with
    | (Return a, st') => k a st'
    | (Throw e, st') => (Throw e, st')
    end.

Definition try_catchL {A} (body : L A) (handler : Error -> L A) : L A :=
  fun st =>
    match body st with
    | (Return a, st') => (Return a, st')
    | (Throw e, st') => handler e st'
    end.

(** A store operation, run from the listing handler. *)
Definition on_store {A} (m : M A) : L A :=
  fun st =>
    let '(o, w') := m (fst st) in (o, (w', snd st)).

(** [res.status(code)] and [res.json(body)] on the listing's response. *)
Definition reply_with_status (code : Z) : L unit :=
  fun st =>
    (Return tt,
     (fst st, {| reply_status := code; reply_sent := reply_sent (snd st) |})).

Definition reply_json (body : Payload) : L unit :=
  fun st =>
    match reply_sent (snd st) with
    | Some _ => (Throw HeadersSent, st)
    | None =>
        (Return tt,
         (fst st,
          {| reply_status := reply_status (snd st);
             reply_sent := Some (reply_status (snd st), body) |}))
    end.

(** [ProductTransaction.find()] with no filter. *)
Definition find_all : M (list Doc) :=
  fun w =>
    let w' := called w in
    if storeUp w then (Return (docs w), w') else (Throw StoreError, w').

(** [new Date(value).getTime()] on a stored [dateOfSale]. *)
Definition getTime (d : Date) : number :=
  match d with
  | Some t => Num t
  | None => NaN
  end.

(** The callback of [transactions.map]: a date that is not a number of
    milliseconds is replaced by [null]. *)
Definition sanitize (transaction : Doc) : Transaction :=
  let date :=
    match getTime (dateOfSale transaction) with
    | NaN => Null
    | Num t => DateValue t
    end in
  {| t_title := title transaction;
     t_description := description transaction;
     t_price := price transaction;
     t_category := category transaction;
     t_dateOfSale := date;
     t_sold := sold transaction;
     t_image := image transaction |}.

Definition listTransactions : L unit :=
  try_catchL
    (bindL (on_store find_all) (fun transactions =>
     let sanitizedTransactions := map sanitize transactions in
     bindL (reply_with_status 200) (fun _ =>
     reply_json (TransactionList sanitizedTransactions))))
    (fun _ =>
     bindL (reply_with_status 500) (fun _ =>
     reply_json (ErrorPayload "Error fetching transactions"))).

End Listing.

(** ** Vocabulary of the properties *)


Import JS Store Eff Controller Calendar.

(** The Date Range Resolver: [getDateRange(getMonthNumber(month), year)]. *)
Definition resolve (month : value) (year : number) : Outcome DateRange :=
pure_bind (getMonthNumber month)
  (fun monthNumber => getDateRange monthNumber year).

(** Years that [Date.UTC] reads as they are and whose months all lie
    within the range of time values. *)
Definition plain_year (y : Z) : Prop :=
  100 <= y <= 275759 \/ -271820 <= y <= -1.

(** The property of claim C3 for one month name and one year: the
    resolver answers with an interval that starts at UTC midnight on day 1
    of the named month of that year and ends at UTC midnight on day 1 of
    the month after it (January of the next year after December), one
    month length later. *)
Definition resolves_to_month (monthName : string) (year : Z) : Prop :=
  exists m s e,
    own_property monthMap monthName = Some m /\
    resolve (VStr monthName) (Num year) =
      Return {| startDate := Some s; endDate := Some e |} /\
    first_of_month year m s /\
    first_of_month (if m =? 12 then year + 1 else year)
                   (if m =? 12 then 1 else m + 1) e /\
    e - s = msPerDay * DaysInMonth year m.

(** Projections out of the worlds the store operations build. *)
Ltac world_simpl :=
  cbn [called with_docs res docs storeUp storeCalls sent statusCode fst snd
       startDate endDate].

(** Runs the store and response primitives of the goal, using the
    hypotheses on the store's state and on the response. *)
Ltac run :=
  unfold find, aggregate, deleteMany, insertMany, res_status, res_json, ret, throw;
  repeat progress
    (world_simpl;
     repeat match goal with
       | H : sent (res _) = None |- _ => rewrite H
       | H : storeUp _ = _ |- _ => rewrite H
       end).

(** The records of the interval with the given [sold] flag. *)
Definition partition_of (flag : bool) (s e : Z) (ds : list Doc) : list Doc :=
  filter (fun d => in_range s e d && sold_is flag d) ds.

(** The sum of the prices of a list of records in double arithmetic,
    taken from 0 in list order. *)
Definition sum_price (ds : list Doc) : double :=
  fold_left (fun sum p => plus sum (Finite p)) (map price ds) (Finite 0).

(** The sum of the prices of a list of records as a sum of rationals. *)
Definition exact_total (ds : list Doc) : Q :=
  fold_right (fun d acc => (price d + acc)%Q) 0%Q ds.

(** The sum of a list of integers, and of their magnitudes. *)
Definition whole_total (zs : list Z) : Z := fold_right Z.add 0 zs.

Definition magnitude_total (zs : list Z) : Z :=
  fold_right (fun z acc => Z.abs z + acc) 0 zs.

(** The statement of claim C4 on the total, for one request: the reply
    carries the sum of the prices of the sold records of the interval. *)
Definition total_is_exact_sum (req : Request) (w : World) (s e : Z) : Prop :=
  exists q sold notSold,
    sent (res (snd (getStatistics req w))) =
      Some (200, StatisticsBody (Finite q) sold notSold) /\
    (q == exact_total (partition_of true s e (docs w)))%Q.

(** Two sold records of March 2022 whose prices add up to more than a
    double holds exactly. *)
Definition two_large_sales : list Doc :=
  [ {| title := "item"; description := "sample"; price := 9007199254740992;
       category := "misc"; dateOfSale := Some 1646092800000;
       sold := Some true; image := "item.png" |};
    {| title := "item"; description := "sample"; price := 1;
       category := "misc"; dateOfSale := Some 1647302400000;
       sold := Some true; image := "item.png" |} ].

(** The three records of March 2022 among records of the last
    millisecond of February, of the first millisecond of April, and one
    without a date. *)
Definition march_2022_among_others : list Doc :=
  [ {| title := "item"; description := "sample"; price := 7;
       category := "misc"; dateOfSale := Some 1646092799999;
       sold := Some true; image := "item.png" |};
    {| title := "item"; description := "sample"; price := 45;
       category := "misc"; dateOfSale := Some 1646092800000;
       sold := Some true; image := "item.png" |};
    {| title := "item"; description := "sample"; price := 45;
       category := "misc"; dateOfSale := Some 1647302400000;
       sold := Some false; image := "item.png" |};
    {| title := "item"; description := "sample"; price := 11;
       category := "misc"; dateOfSale := Some 1648771200000;
       sold := Some true; image := "item.png" |};
    {| title := "item"; description := "sample"; price := 300;
       category := "misc"; dateOfSale := Some 1648771199999;
       sold := Some true; image := "item.png" |};
    {| title := "item"; description := "sample"; price := 13;
       category := "misc"; dateOfSale := None;
       sold := Some false; image := "item.png" |} ].

Definition count (ds : list Doc) : Z := Z.of_nat (List.length ds).

(** The three sample records of March 2022, on an otherwise empty store. *)
Definition sample_doc (p : Q) (flag : bool) (t : Z) : Doc :=
  {| title := "item"; description := "sample"; price := p;
     category := "misc"; dateOfSale := Some t; sold := Some flag;
     image := "item.png" |}.

Definition march_2022 : list Doc :=
  [ sample_doc 45 true 1646092800000;
    sample_doc 45 false 1647302400000;
    sample_doc 300 true 1648771199999 ].

Definition world_of (ds : list Doc) : World :=
  {| docs := ds; storeUp := true; storeCalls := 0; res := fresh_response |}.

Definition request (month year : string) : Request :=
  {| query_month := VStr month; query_year := VStr year |}.

(** The count recorded for a key in a list of groups (the first entry with
    that key). *)
Fixpoint assoc (key : string) (groups : list Group) : option Z :=
  match groups with
  | [] => None
  | (k, c) :: rest => if String.eqb k key then Some c else assoc key rest
  end.

Definition tally (key : string) (groups : list Group) : Z :=
  match assoc key groups with
  | Some c => c
  | None => 0
  end.

(** The bucket of a price: the slot of the result array that its label is
    mapped to. *)
Definition bucket (p : Q) : property :=
  get_property priceRangeMapping (priceRange p).

Definition in_bucket (i : Z) (d : Doc) : bool :=
  match bucket (price d) with
  | Own j => j =? i
  | Inherited | Missing => false
  end.

(** The six counts of the records matched by the interval, in bucket
    order. *)
Definition histogram (range : DateRange) (ds : list Doc) : list Z :=
  map (fun i => count (filter (in_bucket i)
                         (match_stage (startDate range) (endDate range) ds)))
      [0; 1; 2; 3; 4; 5].

(** What one [forEach] step leaves in a slot with the given label. *)
Definition write (label : string) (item : Group) (a : Z) : Z :=
  if String.eqb label (fst item) then snd item else a.

Definition slot (label : string) (items : list Group) (a : Z) : Z :=
  fold_left (fun acc item => write label item acc) items a.

(** What the two reducers answer and the world they leave, case by case. *)
Definition price_reply (selectedMonth : value) (year : option number) (w : World)
  : PriceRangeData * World :=
  if negb (truthy selectedMonth) || negb (truthy_year year) then
    ({| data := zeros |}, w)
  else
    match resolve selectedMonth (year_number year) with
    | Throw _ => ({| data := zeros |}, w)
    | Return range =>
        if storeUp w then ({| data := histogram range (docs w) |}, called w)
        else ({| data := zeros |}, called w)
    end.

Definition category_reply (selectedMonth : value) (year : option number) (w : World)
  : CategoryData * World :=
  if negb (truthy selectedMonth) || negb (truthy_year year) then
    ({| rows := [] |}, w)
  else
    match resolve selectedMonth (year_number year) with
    | Throw _ => ({| rows := [] |}, w)
    | Return range =>
        if storeUp w then ({| rows := categoryPipeline range (docs w) |}, called w)
        else ({| rows := [] |}, called w)
    end.

(** [n] calls of the same operation in a row: their outcomes, and the
    world after the last one. *)
Fixpoint call_times {A} (n : nat) (m : M A) (w : World) : list (Outcome A) * World :=
  match n with
  | O => ([], w)
  | S k =>
      let '(o, w1) := m w in
      let '(os, w2) := call_times k m w1 in
      (o :: os, w2)
  end.

(** A world whose store cannot be reached. *)
Definition unreachable (ds : list Doc) : World :=
  {| docs := ds; storeUp := false; storeCalls := 0; res := fresh_response |}.

(** The labels that [priceRangeMapping] has an entry for. *)
Definition known_label (label : string) : bool :=
  match own_property priceRangeMapping label with
  | Some _ => true
  | None => false
  end.

(** A reply is a client error when its status is in the 400 class. *)
Definition client_error (reply : option (Z * Body)) : Prop :=
  exists code body, reply = Some (code, body) /\ 400 <= code < 500.

(** A fetched record whose dateOfSale cannot be parsed. *)
Definition undated : RawDoc :=
  {| raw_title := Some "item"; raw_description := Some "sample";
     raw_price := Some 10%Q; raw_category := Some "misc";
     raw_date_parse := None; raw_date_cast := None;
     raw_date_reparse := None; raw_sold := Some true;
     raw_image := Some "item.png" |}.

(** The world in which the next request is handled: the store as the
    last request left it, and a response not used yet. *)
Definition next_request (w : World) : World :=
  {| docs := docs w; storeUp := storeUp w; storeCalls := storeCalls w;
     res := fresh_response |}.

(** Strings made of white space only. *)
Definition blank (s : string) : bool := all_space s.

(** A tab followed by a no-break space (U+00A0), and a byte order mark
    (U+FEFF) followed by a line separator (U+2028) and a space. *)
Definition tab_nbsp : string :=
  String (ascii_of_nat 9) (String (ascii_of_nat 194) (String (ascii_of_nat 160) "")).

Definition bom_ls_space : string :=
  String (ascii_of_nat 239) (String (ascii_of_nat 187) (String (ascii_of_nat 191)
    (String (ascii_of_nat 226) (String (ascii_of_nat 128) (String (ascii_of_nat 168)
       " "))))).

(** A byte that is not white space and does not start a white space
    character, and the non-empty strings made of such bytes only. *)
Definition solid_byte (c : ascii) : bool :=
  let n := N_of_ascii c in
  (negb (is_space c) &&
   negb ((n =? 194) || (n =? 225) || (n =? 226) || (n =? 227) || (n =? 239)))%N.

Definition solid (s : string) : bool :=
  negb (String.eqb s "") && forallb solid_byte (list_ascii_of_string s).

(** The time value of 00:00 UTC on day 1 of month [m] (1 = January) of
    year [y]. *)
Definition month_start (y m : Z) : Z :=
  msPerDay * (DayFromYear y + DaysBeforeMonth (InLeapYear y) (m - 1)).

(** The month after month [m] of year [y]. *)
Definition following (y m : Z) : Z * Z :=
  if m =? 12 then (y + 1, 1) else (y, m + 1).

(** Years all of whose months lie outside the range of time values. *)
Definition unreachable_year (y : Z) : Prop :=
  275761 <= y \/ y <= -271822.

(** The sum of a list of counts. *)
Definition total (counts : list Z) : Z := fold_right Z.add 0 counts.

(** An operation that leaves the contents and the reachability of the
    store as they were, whatever else it does. *)
Definition keeps_store {A} (m : M A) : Prop :=
  forall w, docs (snd (m w)) = docs w /\ storeUp (snd (m w)) = storeUp w.

(** A fetched record and the stored record made of it hold the same
    fields. *)
Definition stored_as (r : RawDoc) (d : Doc) : Prop :=
  raw_title r = Some (title d) /\
  raw_description r = Some (description d) /\
  raw_price r = Some (price d) /\
  raw_category r = Some (category d) /\
  (exists t, raw_date_cast r = Some t /\ dateOfSale d = Some t) /\
  (exists b, raw_sold r = Some b /\ sold d = Some b) /\
  raw_image r = Some (image d).

(** A fetched record and the listed transaction made of it hold the same
    fields, the date being a proper date. *)
Definition listed_as (r : RawDoc) (t : Listing.Transaction) : Prop :=
  raw_title r = Some (Listing.t_title t) /\
  raw_description r = Some (Listing.t_description t) /\
  raw_price r = Some (Listing.t_price t) /\
  raw_category r = Some (Listing.t_category t) /\
  (exists time, raw_date_cast r = Some time /\
                Listing.t_dateOfSale t = Listing.DateValue time) /\
  (exists b, raw_sold r = Some b /\ Listing.t_sold t = Some b) /\
  raw_image r = Some (Listing.t_image t).

(** The world a listing request starts in, on the store of [w]. *)
Definition listing_request (w : World) : World * Listing.Reply :=
  (w, Listing.fresh_reply).

(** Closes the side conditions of a case analysis on a reply. *)
Ltac settle :=
  repeat split; intros;
  try solve
    [ discriminate | lia | eauto 8
    | repeat match goal with
        | H : _ \/ _ |- _ => destruct H
        | H : _ /\ _ |- _ => destruct H
        | H : exists _, _ |- _ => destruct H
        end;
      try discriminate; try congruence; try lia; eauto 8 ].

(** A fetched record that passes the schema. *)
Definition dated : RawDoc :=
  {| raw_title := Some "item"; raw_description := Some "sample";
     raw_price := Some 10%Q; raw_category := Some "misc";
     raw_date_parse := Some 1646092800000;
     raw_date_cast := Some 1646092800000;
     raw_date_reparse := Some 1646092800000; raw_sold := Some true;
     raw_image := Some "item.png" |}.

(** A fetched record whose dateOfSale is a number of milliseconds: the
    schema makes a Date of it, [Date.parse] makes nothing of it. *)
Definition timestamped : RawDoc :=
  {| raw_title := Some "item"; raw_description := Some "sample";
     raw_price := Some 10%Q; raw_category := Some "misc";
     raw_date_parse := None;
     raw_date_cast := Some 1646092800000;
     raw_date_reparse := Some 1646092800000; raw_sold := Some true;
     raw_image := Some "item.png" |}.

(** A fetched record whose dateOfSale is read as a date when fetched and
    cast to a Date by the schema, which the validator then rejects. *)
Definition misdated : RawDoc :=
  {| raw_title := Some "item"; raw_description := Some "sample";
     raw_price := Some 10%Q; raw_category := Some "misc";
     raw_date_parse := Some (-62198755200000);
     raw_date_cast := Some (-62198755200000);
     raw_date_reparse := None; raw_sold := Some true;
     raw_image := Some "item.png" |}.

(** [dateOfSale] lies in the half-open interval from [s] to [e]. *)
Definition dated_within (s e : Z) (d : Doc) : Prop :=
  exists t, dateOfSale d = Some t /\ s <= t < e.

(** ** Properties *)

(** *** Calendar arithmetic *)

Lemma floor_step_4 (y : Z) :
  (y + 1 - 1969) / 4 = (y - 1969) / 4 + (if y mod 4 =? 0 then 1 else 0).
Proof.
  destruct (Z.eqb_spec (y mod 4) 0) as [E | E];
    Z.to_euclidean_division_equations; lia.
Qed.

Lemma floor_step_100 (y : Z) :
  (y + 1 - 1901) / 100 = (y - 1901) / 100 + (if y mod 100 =? 0 then 1 else 0).
Proof.
  destruct (Z.eqb_spec (y mod 100) 0) as [E | E];
    Z.to_euclidean_division_equations; lia.
Qed.

Lemma floor_step_400 (y : Z) :
  (y + 1 - 1601) / 400 = (y - 1601) / 400 + (if y mod 400 =? 0 then 1 else 0).
Proof.
  destruct (Z.eqb_spec (y mod 400) 0) as [E | E];
    Z.to_euclidean_division_equations; lia.
Qed.

Lemma mod_4_of_100 (y : Z) : y mod 100 = 0 -> y mod 4 = 0.
Proof.
  intros H.
  rewrite <- (Z.mod_mod_divide y 100 4) by (exists 25; reflexivity).
  now rewrite H.
Qed.

Lemma mod_100_of_400 (y : Z) : y mod 400 = 0 -> y mod 100 = 0.
Proof.
  intros H.
  rewrite <- (Z.mod_mod_divide y 400 100) by (exists 4; reflexivity).
  now rewrite H.
Qed.

Lemma DayFromYear_succ (y : Z) :
  DayFromYear (y + 1) = DayFromYear y + DaysInYear y.
Proof.
  unfold DayFromYear, DaysInYear.
  rewrite floor_step_4, floor_step_100, floor_step_400.
  pose proof (mod_4_of_100 y). pose proof (mod_100_of_400 y).
  destruct (Z.eqb_spec (y mod 4) 0), (Z.eqb_spec (y mod 100) 0),
    (Z.eqb_spec (y mod 400) 0); cbn [negb]; lia.
Qed.

Lemma InLeapYear_cases (y : Z) : InLeapYear y = 0 \/ InLeapYear y = 1.
Proof.
  unfold InLeapYear, DaysInYear.
  destruct (y mod 4 =? 0), (y mod 100 =? 0), (y mod 400 =? 0); cbn; lia.
Qed.

Lemma DayFromYear_bounds (y : Z) :
  -271820 <= y <= 275760 ->
  -99999744 <= DayFromYear y <= 99999744 /\
  (y <= 275759 -> DayFromYear y <= 99999379).
Proof.
  intros Hy. unfold DayFromYear.
  Z.to_euclidean_division_equations. lia.
Qed.

Lemma DaysBeforeMonth_bounds (leap m : Z) :
  0 <= leap <= 1 -> 0 <= DaysBeforeMonth leap m <= 335.
Proof.
  intros Hl. unfold DaysBeforeMonth.
  destruct m as [| p | p]; try lia.
  do 4 (destruct p as [p | p |]; try lia).
Qed.

Lemma Date_UTC_day_one (y m : Z) :
  plain_year y -> 0 <= m <= 12 ->
  Date_UTC (Num y) (Num m) (Num 1) =
  Num (msPerDay *
       (DayFromYear (y + m / 12) +
        DaysBeforeMonth (InLeapYear (y + m / 12)) (m mod 12))).
Proof.
  intros Hy Hm. unfold Date_UTC, MakeFullYear.
  replace ((0 <=? y) && (y <=? 99)) with false
    by (unfold plain_year in Hy; symmetry; apply andb_false_iff; lia).
  unfold MakeDay, TimeClip.
  assert (Hq : 0 <= m / 12 <= 1) by (Z.to_euclidean_division_equations; lia).
  pose proof (DayFromYear_bounds (y + m / 12)) as Hd.
  pose proof (InLeapYear_cases (y + m / 12)) as Hl.
  pose proof (DaysBeforeMonth_bounds (InLeapYear (y + m / 12)) (m mod 12)) as Hb.
  set (d := DayFromYear (y + m / 12)) in *.
  set (b := DaysBeforeMonth (InLeapYear (y + m / 12)) (m mod 12)) in *.
  assert (Hd' : -99999744 <= d /\ d + b <= 99999744).
  { unfold plain_year in Hy.
    destruct Hd as [Hd1 Hd2]; [lia |].
    destruct (Z.eq_dec m 12) as [-> | Hne].
    - change (DaysBeforeMonth (InLeapYear (y + 12 / 12)) (12 mod 12)) with 0 in b.
      subst b. lia.
    - assert (m / 12 = 0) by (Z.to_euclidean_division_equations; lia).
      assert (Hb' : 0 <= b <= 335) by (apply Hb; lia).
      assert (d <= 99999379) by (apply Hd2; lia).
      lia. }
  assert (Hb' : 0 <= b <= 335) by (apply Hb; lia).
  replace (Z.abs ((d + b + 1 - 1) * msPerDay) <=? 8640000000000000) with true
    by (symmetry; apply Z.leb_le; unfold msPerDay; lia).
  f_equal. lia.
Qed.

Lemma first_of_month_day (y m : Z) :
  1 <= m <= 12 ->
  first_of_month y m
    (msPerDay * (DayFromYear y + DaysBeforeMonth (InLeapYear y) (m - 1))).
Proof.
  intros Hm. unfold first_of_month, year_holds, DayWithinYear, TimeFromYear.
  rewrite DayFromYear_succ.
  pose proof (InLeapYear_cases y) as Hl.
  assert (HY : DaysInYear y = 365 + InLeapYear y) by (unfold InLeapYear; lia).
  rewrite HY.
  set (d := DayFromYear y). set (l := InLeapYear y) in *.
  rewrite (Z.mul_comm msPerDay (d + _)), Z.mod_mul, Z.div_mul
    by (unfold msPerDay; lia).
  replace (d + DaysBeforeMonth l (m - 1) - d) with (DaysBeforeMonth l (m - 1)) by lia.
  assert (Hcases : m = 1 \/ m = 2 \/ m = 3 \/ m = 4 \/ m = 5 \/ m = 6 \/
                   m = 7 \/ m = 8 \/ m = 9 \/ m = 10 \/ m = 11 \/ m = 12) by lia.
  unfold msPerDay.
  repeat split.
  - apply andb_true_iff; split; [apply Z.leb_le | apply Z.ltb_lt];
      pose proof (DaysBeforeMonth_bounds l (m - 1)); lia.
  - destruct Hl as [-> | ->];
      repeat (destruct Hcases as [-> | Hcases]; [reflexivity |]);
      subst; reflexivity.
  - destruct Hl as [-> | ->];
      repeat (destruct Hcases as [-> | Hcases]; [reflexivity |]);
      subst; reflexivity.
Qed.

Lemma month_length (y m : Z) :
  1 <= m <= 11 ->
  DaysBeforeMonth (InLeapYear y) m - DaysBeforeMonth (InLeapYear y) (m - 1) =
  DaysInMonth y m.
Proof.
  intros Hm.
  assert (Hc : m = 1 \/ m = 2 \/ m = 3 \/ m = 4 \/ m = 5 \/ m = 6 \/
               m = 7 \/ m = 8 \/ m = 9 \/ m = 10 \/ m = 11) by lia.
  unfold DaysInMonth.
  destruct (InLeapYear_cases y) as [E | E]; rewrite E;
    repeat (destruct Hc as [-> | Hc]; [reflexivity |]); subst m; reflexivity.
Qed.

Lemma month_length_december (y : Z) :
  DayFromYear y + DaysInYear y + DaysBeforeMonth (InLeapYear (y + 1)) 0 -
  (DayFromYear y + DaysBeforeMonth (InLeapYear y) (12 - 1)) =
  DaysInMonth y 12.
Proof.
  change (DaysBeforeMonth (InLeapYear (y + 1)) 0) with 0.
  change (DaysBeforeMonth (InLeapYear y) (12 - 1)) with (334 + InLeapYear y).
  change (DaysInMonth y 12) with 31.
  unfold InLeapYear. lia.
Qed.

(** *** The Date Range Resolver *)

Lemma getMonthNumber_own (name : string) (m : Z) :
  In (name, m) monthMap -> getMonthNumber (VStr name) = Return (Own m).
Proof.
  unfold monthMap. cbn [In]. intros H.
  repeat (destruct H as [H | H]; [inversion H; subst; reflexivity |]).
  contradiction.
Qed.

Lemma monthMap_range (name : string) (m : Z) :
  In (name, m) monthMap -> 1 <= m <= 12 /\ own_property monthMap name = Some m.
Proof.
  unfold monthMap. cbn [In]. intros H.
  repeat (destruct H as [H | H]; [inversion H; subst; split; [lia | reflexivity] |]).
  contradiction.
Qed.




(** *** Sales Summary *)

Lemma fold_left_price (ds : list Doc) (acc : double) :
  fold_left (fun sum item => plus sum (Finite (price item))) ds acc =
  fold_left (fun sum p => plus sum (Finite p)) (map price ds) acc.
Proof.
  revert acc. induction ds as [| d ds IH]; intros acc; cbn [fold_left map];
    [reflexivity | apply IH].
Qed.

Lemma Qred_whole (n : Z) : Qred (n # 1) = n # 1.
Proof.
  unfold Qred.
  pose proof (Z.ggcd_gcd n 1) as Hg.
  pose proof (Z.ggcd_correct_divisors n 1) as Hd.
  destruct (Z.ggcd n 1) as [g [aa bb]]. cbn [fst snd] in *.
  rewrite Z.gcd_1_r in Hg. subst g. destruct Hd as [Ha Hb].
  replace aa with n by lia. replace bb with 1 by lia. reflexivity.
Qed.

(** A whole number below [2 ^ 53] in magnitude is a double. *)
Lemma to_double_whole (n : Z) :
  Z.abs n < 2 ^ 53 -> to_double (n # 1) = Finite (n # 1).
Proof.
  intros Hn. unfold to_double. cbn [Qnum Qden].
  destruct (Z.eqb_spec n 0) as [-> | Hne]; [reflexivity |].
  set (a := Z.abs n) in *.
  assert (Ha : 0 < a) by (subst a; lia).
  assert (He : binade a 1 = Z.log2 a).
  { unfold binade. change (Z.log2 1) with 0. rewrite Z.sub_0_r.
    pose proof (Z.log2_nonneg a) as Hl.
    destruct (Z.leb_spec 0 (Z.log2 a)); [| lia].
    pose proof (Z.log2_spec a Ha) as [Hlo _].
    destruct (Z.leb_spec (1 * 2 ^ Z.log2 a) a); [reflexivity | lia]. }
  rewrite He.
  assert (Hl : 0 <= Z.log2 a < 53).
  { split; [apply Z.log2_nonneg |]. apply Z.log2_lt_pow2; lia. }
  assert (Hsgn : Z.sgn n * a = n) by (subst a; lia).
  rewrite Z.max_l by lia.
  destruct (Z.leb_spec 0 (Z.log2 a - 52)) as [Hp | Hp].
  - assert (Hp0 : Z.log2 a - 52 = 0) by lia. rewrite Hp0.
    change (1 * 2 ^ 0) with 1.
    assert (Hr : round_half_even a 1 = a).
    { unfold round_half_even. rewrite Z.mod_1_r, Z.div_1_r. reflexivity. }
    rewrite Hr.
    destruct (Z.leb_spec (2 ^ 1024) (a * 2 ^ 0)) as [Hbig | _].
    + exfalso. assert (2 ^ 53 < 2 ^ 1024) by (apply Z.pow_lt_mono_r; lia).
      change (2 ^ 0) with 1 in Hbig. lia.
    + change (2 ^ 0) with 1. rewrite Z.mul_1_r, Hsgn, Qred_whole. reflexivity.
  - set (k := - (Z.log2 a - 52)).
    assert (Hk : 0 < 2 ^ k) by (apply Z.pow_pos_nonneg; subst k; lia).
    assert (Hr : round_half_even (a * 2 ^ k) 1 = a * 2 ^ k).
    { unfold round_half_even. rewrite Z.mod_1_r, Z.div_1_r. reflexivity. }
    rewrite Hr. f_equal.
    rewrite <- (Qred_whole n). apply Qred_complete.
    unfold Qeq. cbn [Qnum Qden]. rewrite Z2Pos.id by exact Hk. lia.
Qed.

(** Adding whole numbers in double arithmetic is exact as long as the
    magnitudes add up to less than [2 ^ 53]. *)
Lemma sum_whole (zs : list Z) (acc : Z) :
  Z.abs acc + magnitude_total zs < 2 ^ 53 ->
  fold_left (fun sum p => plus sum (Finite p)) (map inject_Z zs)
            (Finite (inject_Z acc)) =
  Finite (inject_Z (acc + whole_total zs)).
Proof.
  revert acc. induction zs as [| z zs IH]; intros acc Hb.
  - cbn. rewrite Z.add_0_r. reflexivity.
  - cbn [map fold_left magnitude_total whole_total fold_right] in *.
    fold (magnitude_total zs) in Hb. fold (whole_total zs).
    assert (Hstep : plus (Finite (inject_Z acc)) (Finite (inject_Z z)) =
                    Finite (inject_Z (acc + z))).
    { cbn [plus]. unfold inject_Z, Qplus. cbn [Qnum Qden].
      rewrite !Z.mul_1_r. change (1 * 1)%positive with 1%positive.
      pose proof (Z.abs_nonneg z). pose proof (Z.abs_triangle acc z).
      assert (0 <= magnitude_total zs).
      { clear. induction zs as [| x xs IHx]; cbn; [lia |].
        fold (magnitude_total xs). pose proof (Z.abs_nonneg x). lia. }
      apply to_double_whole. lia. }
    rewrite Hstep, IH.
    + f_equal. f_equal. lia.
    + pose proof (Z.abs_triangle acc z). lia.
Qed.

Lemma partition_of_filter (flag : bool) (s e : Z) (ds : list Doc) (f : Doc -> bool) :
  (forall d, f d = true <-> sold d = Some flag /\ dated_within s e d) ->
  partition_of flag s e ds = filter f ds.
Proof.
  intros Hf. unfold partition_of. apply filter_ext. intros d.
  destruct (f d) eqn:E.
  - apply Hf in E as [Hs (t & Ht & H1 & H2)].
    unfold in_range, sold_is. rewrite Ht, Hs.
    apply andb_true_iff. split; [| apply eqb_reflx].
    apply andb_true_iff. split; [apply Z.leb_le | apply Z.ltb_lt]; assumption.
  - destruct (in_range s e d && sold_is flag d) eqn:E'; [| reflexivity].
    exfalso. apply andb_true_iff in E' as [Hr Hs].
    assert (Hd : f d = true); [| congruence].
    apply Hf. unfold in_range in Hr. unfold sold_is in Hs.
    destruct (dateOfSale d) as [t |] eqn:Ht; [| discriminate].
    destruct (sold d) as [b |]; [| discriminate].
    apply andb_true_iff in Hr as [H1 H2].
    apply Z.leb_le in H1. apply Z.ltb_lt in H2. apply eqb_prop in Hs. subst b.
    split; [reflexivity |]. exists t. auto.
Qed.

Lemma in_range_within (s e : Z) (d : Doc) :
  in_range s e d = true <-> dated_within s e d.
Proof.
  unfold in_range, dated_within. split.
  - destruct (dateOfSale d) as [t |]; [| discriminate].
    intros H. apply andb_true_iff in H as [H1 H2].
    apply Z.leb_le in H1. apply Z.ltb_lt in H2. eauto.
  - intros (t & -> & H1 & H2).
    apply andb_true_iff. split; [apply Z.leb_le | apply Z.ltb_lt]; assumption.
Qed.

(** What [getStatistics] does on a request whose month and year are
    present and resolve to a proper interval, against a reachable store
    and a response not yet sent. *)
Lemma getStatistics_resolved (req : Request) (w : World) (s e : Z) :
  sent (res w) = None ->
  storeUp w = true ->
  truthy (query_month req) = true ->
  truthy (query_year req) = true ->
  resolve (query_month req) (parseInt (query_year req)) =
    Return {| startDate := Some s; endDate := Some e |} ->
  getStatistics req w =
  (Return RetUndefined,
   {| docs := docs w; storeUp := storeUp w; storeCalls := S (S (storeCalls w));
      res := {| statusCode := statusCode (res w);
                sent := Some (statusCode (res w),
                              StatisticsBody
                                (sum_price (partition_of true s e (docs w)))
                                (count (partition_of true s e (docs w)))
                                (count (partition_of false s e (docs w)))) |} |}).
Proof.
  intros Hfresh Hup Hm Hy Hres.
  unfold getStatistics, try_catch, bind, lift.
  rewrite Hm, Hy. cbn [negb orb].
  change (pure_bind (getMonthNumber (query_month req)) _)
    with (resolve (query_month req) (parseInt (query_year req))).
  rewrite Hres. cbn [startDate endDate].
  unfold find, res_json, ret.
  repeat progress (world_simpl; rewrite ?Hup, ?Hfresh).
  rewrite fold_left_price. reflexivity.
Qed.

Lemma partition_counts (s e : Z) (ds : list Doc) :
  (forall d, In d ds -> sold d <> None) ->
  count (partition_of true s e ds) + count (partition_of false s e ds) =
  count (filter (in_range s e) ds).
Proof.
  unfold count, partition_of. intros Hflag.
  induction ds as [| d ds IH]; [reflexivity |].
  assert (Hd : sold d <> None) by (apply Hflag; left; reflexivity).
  assert (IH' := IH (fun x Hx => Hflag x (or_intror Hx))).
  assert (Hsplit : (sold_is true d = true /\ sold_is false d = false) \/
                   (sold_is true d = false /\ sold_is false d = true)).
  { unfold sold_is. destruct (sold d) as [[|] |]; [left | right | congruence];
      split; reflexivity. }
  cbn [filter].
  destruct (in_range s e d); cbn [andb]; [| exact IH'].
  destruct Hsplit as [[-> ->] | [-> ->]]; cbn [List.length]; lia.
Qed.

Lemma partition_of_in_range (flag : bool) (s e : Z) (ds : list Doc) :
  partition_of flag s e ds = filter (sold_is flag) (filter (in_range s e) ds).
Proof.
  unfold partition_of. induction ds as [| d ds IH]; [reflexivity |].
  cbn [filter]. destruct (in_range s e d); cbn [andb filter]; rewrite IH; reflexivity.
Qed.

(** C4, as amended: on a request that resolves to an interval, Sales
    Summary answers 200 with totalSales, the prices of the interval's
    records whose sold flag is true added up from 0 in double arithmetic
    in the order of retrieval, and with the sizes of the sold and the
    not-sold sets; the two sets are the stored records, in store order,
    whose dateOfSale lies in [start, end) and whose flag is true, resp.
    false; totalSales is the exact sum whenever the prices summed are
    whole numbers whose magnitudes add up to less than 2^53; an interval
    that holds no record gives {0, 0, 0}; and the three March 2022 records
    give {345, 2, 1}, also among records of other months. *)
Theorem sales_summary_totals (req : Request) (w : World) (s e : Z)
    (Hfresh : res w = fresh_response)
    (Hup : storeUp w = true)
    (Hmonth : truthy (query_month req) = true)
    (Hyear : truthy (query_year req) = true)
    (Hrange : resolve (query_month req) (parseInt (query_year req)) =
              Return {| startDate := Some s; endDate := Some e |}) :
  let soldItems := partition_of true s e (docs w) in
  let notSoldItems := partition_of false s e (docs w) in
  sent (res (snd (getStatistics req w))) =
    Some (200, StatisticsBody (sum_price soldItems) (count soldItems)
                 (count notSoldItems)) /\
  (forall f, (forall d, f d = true <-> sold d = Some true /\ dated_within s e d) ->
             soldItems = filter f (docs w)) /\
  (forall f, (forall d, f d = true <-> sold d = Some false /\ dated_within s e d) ->
             notSoldItems = filter f (docs w)) /\
  (forall zs, map price soldItems = map inject_Z zs ->
              magnitude_total zs < 2 ^ 53 ->
              sum_price soldItems = Finite (inject_Z (whole_total zs))) /\
  ((forall d, In d (docs w) -> ~ dated_within s e d) ->
   sent (res (snd (getStatistics req w))) = Some (200, StatisticsBody 0 0 0)) /\
  sent (res (snd (getStatistics (request "Mar" "2022") (world_of march_2022)))) =
    Some (200, StatisticsBody 345 2 1) /\
  sent (res (snd (getStatistics (request "Mar" "2022")
                    (world_of march_2022_among_others)))) =
    Some (200, StatisticsBody 345 2 1).
Proof.
  intros soldItems notSoldItems.
  assert (Hsent : sent (res w) = None) by (rewrite Hfresh; reflexivity).
  rewrite (getStatistics_resolved req w s e Hsent Hup Hmonth Hyear Hrange).
  world_simpl. rewrite Hfresh. cbn [statusCode fresh_response].
  split; [reflexivity |].
  split; [intros f Hf; apply partition_of_filter; exact Hf |].
  split; [intros f Hf; apply partition_of_filter; exact Hf |].
  split; [| split; [| split; vm_compute; reflexivity]].
  - intros zs Hzs Hb. unfold sum_price. rewrite Hzs.
    change (Finite 0) with (Finite (inject_Z 0)).
    rewrite sum_whole by (cbn [Z.abs]; lia). reflexivity.
  - intros Hnone.
    assert (Hempty : forall flag, partition_of flag s e (docs w) = []).
    { intros flag. rewrite partition_of_in_range.
      replace (filter (in_range s e) (docs w)) with (@nil Doc); [reflexivity |].
      symmetry. clear - Hnone.
      induction (docs w) as [| d ds IH]; [reflexivity |].
      cbn [filter]. destruct (in_range s e d) eqn:E.
      - exfalso. apply (Hnone d); [left; reflexivity |].
        apply in_range_within. exact E.
      - apply IH. intros x Hx. apply Hnone. right. exact Hx. }
    subst soldItems notSoldItems. rewrite !Hempty. reflexivity.
Qed.

Lemma sales_summary_totals_witness :
  sent (res (snd (getStatistics (request "Mar" "2022") (world_of march_2022)))) =
  Some (200, StatisticsBody 345 2 1).
Proof.
  exact (proj1 (proj2 (proj2 (proj2 (proj2 (proj2
           (sales_summary_totals (request "Mar" "2022") (world_of march_2022)
              1646092800000 1648771200000
              eq_refl eq_refl eq_refl eq_refl eq_refl))))))).
Defined.

(** C4 fails as stated: the total returned is not always the sum of the
    prices; for two sold records priced 9007199254740992 and 1 it is
    9007199254740992. *)
Lemma total_is_not_the_exact_sum :
  ~ total_is_exact_sum (request "Mar" "2022") (world_of two_large_sales)
      1646092800000 1648771200000.
Proof.
  intros (q & a & b & Hsent & Hq).
  vm_compute in Hsent. injection Hsent as Hq' _ _. subst q.
  vm_compute in Hq. discriminate.
Qed.

(** C6: when every stored record carries a boolean sold flag, the two
    counts of Sales Summary add up to the number of records whose
    dateOfSale lies in the half-open interval [start, end); no record is
    in both sets and every record of the interval is in one of them. *)
Theorem sold_and_unsold_cover_interval (req : Request) (w : World) (s e : Z)
    (Hfresh : res w = fresh_response)
    (Hup : storeUp w = true)
    (Hmonth : truthy (query_month req) = true)
    (Hyear : truthy (query_year req) = true)
    (Hrange : resolve (query_month req) (parseInt (query_year req)) =
              Return {| startDate := Some s; endDate := Some e |})
    (Hflags : forall d, In d (docs w) -> sold d <> None) :
  exists totalSales totalSoldItems totalNotSoldItems,
    sent (res (snd (getStatistics req w))) =
      Some (200, StatisticsBody totalSales totalSoldItems totalNotSoldItems) /\
    totalSoldItems = count (partition_of true s e (docs w)) /\
    totalNotSoldItems = count (partition_of false s e (docs w)) /\
    totalSoldItems + totalNotSoldItems = count (filter (in_range s e) (docs w)) /\
    (forall d, In d (filter (in_range s e) (docs w)) <->
               exists t, In d (docs w) /\ dateOfSale d = Some t /\ s <= t < e) /\
    (forall d, ~ (In d (partition_of true s e (docs w)) /\
                  In d (partition_of false s e (docs w)))) /\
    (forall d, In d (filter (in_range s e) (docs w)) ->
               In d (partition_of true s e (docs w)) \/
               In d (partition_of false s e (docs w))).
Proof.
  assert (Hsent : sent (res w) = None) by (rewrite Hfresh; reflexivity).
  rewrite (getStatistics_resolved req w s e Hsent Hup Hmonth Hyear Hrange).
  world_simpl. rewrite Hfresh. cbn [statusCode fresh_response].
  do 3 eexists. split; [reflexivity |].
  split; [reflexivity |]. split; [reflexivity |].
  split; [apply partition_counts; exact Hflags |].
  split; [| split].
  - intros d. rewrite filter_In. unfold in_range.
    split.
    + intros [Hin Hr]. destruct (dateOfSale d) as [t |]; [| discriminate].
      exists t. apply andb_true_iff in Hr as [H1 H2].
      apply Z.leb_le in H1. apply Z.ltb_lt in H2. auto.
    + intros (t & Hin & -> & H1 & H2). split; [exact Hin |].
      apply andb_true_iff. split; [apply Z.leb_le | apply Z.ltb_lt]; assumption.
  - intros d [H1 H2].
    apply filter_In in H1 as [_ H1]. apply filter_In in H2 as [_ H2].
    apply andb_true_iff in H1 as [_ H1]. apply andb_true_iff in H2 as [_ H2].
    unfold sold_is in H1, H2. destruct (sold d) as [[|] |]; discriminate.
  - intros d Hd. apply filter_In in Hd as [Hin Hr].
    unfold partition_of. rewrite !filter_In, Hr. cbn [andb].
    specialize (Hflags d Hin). unfold sold_is.
    destruct (sold d) as [[|] |]; [left | right | congruence]; split; auto.
Qed.

Lemma sold_and_unsold_cover_interval_witness :
  exists totalSales totalSoldItems totalNotSoldItems,
    sent (res (snd (getStatistics (request "Mar" "2022") (world_of march_2022)))) =
      Some (200, StatisticsBody totalSales totalSoldItems totalNotSoldItems) /\
    totalSoldItems + totalNotSoldItems = 3.
Proof.
  destruct (sold_and_unsold_cover_interval
              (request "Mar" "2022") (world_of march_2022)
              1646092800000 1648771200000
              eq_refl eq_refl eq_refl eq_refl eq_refl)
    as (ts & a & b & Hsent & _ & _ & Hsum & _).
  - intros d Hd. cbn in Hd.
    destruct Hd as [<- | [<- | [<- | []]]]; discriminate.
  - exists ts, a, b. split; [exact Hsent | exact Hsum].
Defined.

(** Without the boolean flags the two counts can fall short: a record of
    the interval whose flag is missing is in neither set. *)
Example flagless_record_is_not_counted :
  let d := {| title := "item"; description := "sample"; price := 10;
              category := "misc"; dateOfSale := Some 1646092800000;
              sold := None; image := "item.png" |} in
  sent (res (snd (getStatistics (request "Mar" "2022") (world_of [d])))) =
  Some (200, StatisticsBody 0 0 0).
Proof. reflexivity. Qed.

(** *** Grouping and sorting *)

Lemma assoc_count_key (key k : string) (groups : list Group) :
  assoc key (count_key k groups) =
  if String.eqb k key then Some (tally key groups + 1) else assoc key groups.
Proof.
  unfold tally. induction groups as [| [k' c] rest IH]; cbn [count_key assoc].
  - destruct (String.eqb_spec k key); reflexivity.
  - destruct (String.eqb_spec k' k) as [-> | Hne]; cbn [assoc].
    + destruct (String.eqb_spec k key); reflexivity.
    + destruct (String.eqb_spec k' key) as [-> | Hne'].
      * destruct (String.eqb_spec k key); [congruence | reflexivity].
      * exact IH.
Qed.

Lemma tally_count_key (key k : string) (groups : list Group) :
  tally key (count_key k groups) =
  tally key groups + (if String.eqb k key then 1 else 0).
Proof.
  unfold tally at 1. rewrite assoc_count_key.
  destruct (String.eqb k key); [reflexivity | unfold tally; lia].
Qed.

Lemma keys_count_key (k : string) (groups : list Group) :
  map fst (count_key k groups) =
  if in_dec string_dec k (map fst groups) then map fst groups
  else (map fst groups ++ [k])%list.
Proof.
  induction groups as [| [k' c] rest IH]; [reflexivity |].
  cbn [count_key map fst].
  destruct (String.eqb_spec k' k) as [-> | Hne].
  - destruct (in_dec string_dec k (k :: map fst rest)) as [_ | Hn];
      [reflexivity | exfalso; apply Hn; left; reflexivity].
  - cbn [map fst]. rewrite IH.
    destruct (in_dec string_dec k (map fst rest)) as [Hin | Hn];
      destruct (in_dec string_dec k (k' :: map fst rest)) as [Hin' | Hn'];
      try reflexivity.
    + exfalso. apply Hn'. right. exact Hin.
    + destruct Hin' as [E | Hin']; [congruence | contradiction].
Qed.

Lemma NoDup_snoc (k : string) (l : list string) :
  NoDup l -> ~ In k l -> NoDup (l ++ [k])%list.
Proof.
  intros Hl Hk. induction Hl as [| x l Hx Hl IH]; cbn.
  - constructor; [intros [] | constructor].
  - constructor.
    + rewrite in_app_iff. intros [H | [H | []]]; [contradiction |].
      apply Hk. left. symmetry. exact H.
    + apply IH. intros H. apply Hk. right. exact H.
Qed.

Lemma NoDup_count_key (k : string) (groups : list Group) :
  NoDup (map fst groups) -> NoDup (map fst (count_key k groups)).
Proof.
  intros H. rewrite keys_count_key.
  destruct (in_dec string_dec k (map fst groups)); [exact H |].
  apply NoDup_snoc; assumption.
Qed.

Lemma group_stage_fold (keys : list string) (acc : list Group) (key : string) :
  NoDup (map fst acc) ->
  NoDup (map fst (fold_left (fun groups k => count_key k groups) keys acc)) /\
  tally key (fold_left (fun groups k => count_key k groups) keys acc) =
  tally key acc + Z.of_nat (List.length (filter (String.eqb key) keys)).
Proof.
  revert acc. induction keys as [| k keys IH]; intros acc Hacc; cbn [fold_left filter].
  - split; [exact Hacc | cbn; lia].
  - destruct (IH (count_key k acc) (NoDup_count_key k acc Hacc)) as [Hnd Ht].
    split; [exact Hnd |].
    rewrite Ht, tally_count_key, (String.eqb_sym k key).
    destruct (String.eqb key k); cbn [List.length]; lia.
Qed.

Lemma In_insert_group (g x : Group) (sorted : list Group) :
  In x (insert_group g sorted) <-> x = g \/ In x sorted.
Proof.
  induction sorted as [| h rest IH]; cbn [insert_group].
  - cbn. intuition congruence.
  - destruct (String.leb (fst g) (fst h)); cbn [In]; [intuition congruence |].
    rewrite IH. intuition congruence.
Qed.

Lemma keys_insert_group (g : Group) (sorted : list Group) :
  NoDup (map fst sorted) -> ~ In (fst g) (map fst sorted) ->
  NoDup (map fst (insert_group g sorted)).
Proof.
  intros Hnd Hg. induction sorted as [| h rest IH]; cbn [insert_group].
  - cbn. constructor; [intros [] | constructor].
  - destruct (String.leb (fst g) (fst h)).
    + cbn [map]. constructor; assumption.
    + cbn [map] in *. inversion Hnd as [| ? ? Hh Hrest]; subst.
      constructor.
      * intros Hin. apply in_map_iff in Hin as (x & Hx & Hin).
        apply In_insert_group in Hin as [-> | Hin].
        -- apply Hg. left. symmetry. exact Hx.
        -- apply Hh. apply in_map_iff. exists x. split; assumption.
      * apply IH; [exact Hrest |]. intros H. apply Hg. right. exact H.
Qed.

Lemma sort_stage_keeps (groups : list Group) :
  NoDup (map fst groups) ->
  NoDup (map fst (sort_stage groups)) /\
  (forall x, In x (sort_stage groups) <-> In x groups).
Proof.
  unfold sort_stage. induction groups as [| g rest IH]; intros Hnd; cbn [fold_right].
  - split; [constructor | reflexivity].
  - cbn [map] in Hnd. inversion Hnd as [| ? ? Hg Hrest]; subst.
    destruct (IH Hrest) as [Hnd' Hin'].
    split.
    + apply keys_insert_group; [exact Hnd' |].
      intros H. apply Hg. apply in_map_iff in H as (x & Hx & H).
      apply in_map_iff. exists x. split; [exact Hx | apply Hin'; exact H].
    + intros x. rewrite In_insert_group, Hin'. cbn [In]. intuition congruence.
Qed.

Lemma assoc_In (key : string) (c : Z) (groups : list Group) :
  NoDup (map fst groups) ->
  (assoc key groups = Some c <-> In (key, c) groups).
Proof.
  induction groups as [| [k c'] rest IH]; intros Hnd; cbn [assoc In].
  - split; [discriminate | intros []].
  - cbn [map fst] in Hnd. inversion Hnd as [| ? ? Hk Hrest]; subst.
    destruct (String.eqb_spec k key) as [-> | Hne].
    + split; [intros [= ->]; left; reflexivity |].
      intros [[= ->] | Hin]; [reflexivity |].
      exfalso. apply Hk. apply in_map_iff. exists (key, c). split; [reflexivity | exact Hin].
    + rewrite (IH Hrest). split; [right; assumption |].
      intros [[= -> _] | Hin]; [congruence | exact Hin].
Qed.

Lemma assoc_sort_stage (key : string) (groups : list Group) :
  NoDup (map fst groups) ->
  assoc key (sort_stage groups) = assoc key groups.
Proof.
  intros Hnd. destruct (sort_stage_keeps groups Hnd) as [Hnd' Hin].
  destruct (assoc key (sort_stage groups)) as [c |] eqn:E.
  - symmetry. apply (assoc_In key c groups Hnd). apply Hin.
    apply (assoc_In key c _ Hnd'). exact E.
  - destruct (assoc key groups) as [c |] eqn:E'; [| reflexivity].
    apply (assoc_In key c groups Hnd) in E'. apply Hin in E'.
    apply (assoc_In key c _ Hnd') in E'. congruence.
Qed.

(** *** The price histogram *)

Lemma place_slots (a0 a1 a2 a3 a4 a5 : Z) (item : Group) :
  place [a0; a1; a2; a3; a4; a5] item =
  [ write "0-50" item a0; write "51-100" item a1; write "101-200" item a2;
    write "201-500" item a3; write "501-1000" item a4; write "1001+" item a5 ].
Proof.
  destruct item as [k c].
  unfold place, write, get_property, priceRangeMapping.
  cbn [own_property fst snd].
  destruct (String.eqb_spec "0-50" k) as [<- | H0]; [reflexivity |].
  destruct (String.eqb_spec "51-100" k) as [<- | H1]; [reflexivity |].
  destruct (String.eqb_spec "101-200" k) as [<- | H2]; [reflexivity |].
  destruct (String.eqb_spec "201-500" k) as [<- | H3]; [reflexivity |].
  destruct (String.eqb_spec "501-1000" k) as [<- | H4]; [reflexivity |].
  destruct (String.eqb_spec "1001+" k) as [<- | H5]; [reflexivity |].
  destruct (existsb (String.eqb k) object_prototype_keys); reflexivity.
Qed.

Lemma fold_place (items : list Group) (a0 a1 a2 a3 a4 a5 : Z) :
  fold_left place items [a0; a1; a2; a3; a4; a5] =
  [ slot "0-50" items a0; slot "51-100" items a1; slot "101-200" items a2;
    slot "201-500" items a3; slot "501-1000" items a4; slot "1001+" items a5 ].
Proof.
  revert a0 a1 a2 a3 a4 a5.
  induction items as [| item rest IH]; intros; cbn [fold_left]; [reflexivity |].
  rewrite place_slots. apply IH.
Qed.

Lemma slot_assoc (label : string) (items : list Group) (a : Z) :
  NoDup (map fst items) ->
  slot label items a =
  match assoc label items with Some c => c | None => a end.
Proof.
  unfold slot. revert a.
  induction items as [| [k c] rest IH]; intros a Hnd; [reflexivity |].
  cbn [map fst] in Hnd. inversion Hnd as [| ? ? Hk Hrest]; subst.
  cbn [fold_left assoc]. rewrite (IH _ Hrest). unfold write. cbn [fst snd].
  rewrite (String.eqb_sym label k).
  destruct (String.eqb_spec k label) as [-> | Hne]; [| reflexivity].
  destruct (assoc label rest) as [c' |] eqn:E; [| reflexivity].
  exfalso. apply Hk. apply (assoc_In label c' rest Hrest) in E.
  apply in_map_iff. exists (label, c'). split; [reflexivity | exact E].
Qed.

Lemma slot_of_pipeline (label : string) (keys : list string) :
  slot label (sort_stage (group_stage keys)) 0 =
  Z.of_nat (List.length (filter (String.eqb label) keys)).
Proof.
  destruct (group_stage_fold keys [] label (NoDup_nil _)) as [Hnd Ht].
  fold (group_stage keys) in Hnd, Ht.
  rewrite slot_assoc by (apply sort_stage_keeps; exact Hnd).
  rewrite assoc_sort_stage by exact Hnd.
  unfold tally in Ht. cbn [assoc] in Ht.
  destruct (assoc label (group_stage keys)); lia.
Qed.

Lemma filter_map_length {A} (f : A -> string) (label : string) (l : list A) :
  List.length (filter (String.eqb label) (map f l)) =
  List.length (filter (fun x => String.eqb label (f x)) l).
Proof.
  induction l as [| x l IH]; [reflexivity |].
  cbn [map filter]. destruct (String.eqb label (f x)); cbn [List.length]; rewrite IH; reflexivity.
Qed.

Lemma in_bucket_label (d : Doc) :
  in_bucket 0 d = String.eqb "0-50" (priceRange (price d)) /\
  in_bucket 1 d = String.eqb "51-100" (priceRange (price d)) /\
  in_bucket 2 d = String.eqb "101-200" (priceRange (price d)) /\
  in_bucket 3 d = String.eqb "201-500" (priceRange (price d)) /\
  in_bucket 4 d = String.eqb "501-1000" (priceRange (price d)) /\
  in_bucket 5 d = String.eqb "1001+" (priceRange (price d)).
Proof.
  unfold in_bucket, bucket, priceRange.
  destruct (lte (price d) 50); [repeat split; reflexivity |].
  destruct (lte (price d) 100); [repeat split; reflexivity |].
  destruct (lte (price d) 200); [repeat split; reflexivity |].
  destruct (lte (price d) 500); [repeat split; reflexivity |].
  destruct (lte (price d) 1000); [repeat split; reflexivity |].
  destruct (gt (price d) 1000); repeat split; reflexivity.
Qed.

(** The array filled by the [forEach] over the pipeline's groups holds
    the six bucket counts. *)
Lemma fold_place_pipeline (range : DateRange) (ds : list Doc) :
  fold_left place (priceRangePipeline range ds) zeros = histogram range ds.
Proof.
  unfold priceRangePipeline, histogram.
  set (matched := match_stage (startDate range) (endDate range) ds).
  change zeros with [0; 0; 0; 0; 0; 0].
  rewrite fold_place, !slot_of_pipeline, !map_map. cbn [snd map].
  rewrite !filter_map_length. unfold count.
  repeat (apply f_equal2; [| try reflexivity]);
    do 2 apply f_equal; apply filter_ext; intros d;
    pose proof (in_bucket_label d); symmetry; tauto.
Qed.

Lemma getPriceRangeData_reply (selectedMonth : value) (year : option number) (w : World) :
  getPriceRangeData selectedMonth year w =
  (Return (fst (price_reply selectedMonth year w)),
   snd (price_reply selectedMonth year w)).
Proof.
  unfold getPriceRangeData, getPriceRangeData_try, price_reply, try_catch, bind, lift.
  destruct (negb (truthy selectedMonth) || negb (truthy_year year)); [reflexivity |].
  change (pure_bind (getMonthNumber selectedMonth) _)
    with (resolve selectedMonth (year_number year)).
  destruct (resolve selectedMonth (year_number year)) as [range | err]; [| reflexivity].
  unfold aggregate. destruct (storeUp w); [| reflexivity].
  unfold ret. cbn [fst snd]. rewrite fold_place_pipeline. reflexivity.
Qed.

Lemma getCategoryData_reply (selectedMonth : value) (year : option number) (w : World) :
  getCategoryData selectedMonth year w =
  (Return (fst (category_reply selectedMonth year w)),
   snd (category_reply selectedMonth year w)).
Proof.
  unfold getCategoryData, getCategoryData_try, category_reply, try_catch, bind, lift.
  destruct (negb (truthy selectedMonth) || negb (truthy_year year)); [reflexivity |].
  change (pure_bind (getMonthNumber selectedMonth) _)
    with (resolve selectedMonth (year_number year)).
  destruct (resolve selectedMonth (year_number year)) as [range | err]; [| reflexivity].
  unfold aggregate. destruct (storeUp w); reflexivity.
Qed.

Lemma lte_spec (a b : Q) : reflect (a <= b)%Q (lte a b).
Proof.
  unfold lte. destruct (Qle_bool a b) eqn:E; constructor.
  - apply Qle_bool_iff. exact E.
  - intros H. apply Qle_bool_iff in H. congruence.
Qed.

Lemma histogram_length (range : DateRange) (ds : list Doc) :
  List.length (histogram range ds) = 6%nat.
Proof. reflexivity. Qed.

Lemma histogram_nonneg (range : DateRange) (ds : list Doc) :
  Forall (fun c => 0 <= c) (histogram range ds).
Proof.
  unfold histogram. apply Forall_forall. intros c Hc.
  apply in_map_iff in Hc as (i & <- & _). unfold count. lia.
Qed.

(** C2: the bucket of a non-negative price is a function of the price
    alone, with values 0..5: bucket 0 exactly when p <= 50, bucket 1 when
    50 < p <= 100, bucket 2 when 100 < p <= 200, bucket 3 when
    200 < p <= 500, bucket 4 when 500 < p <= 1000, bucket 5 when
    p > 1000 (so 50 is in bucket 0 and 1000 in bucket 4); and the
    histogram of a resolved interval is the list of the six bucket counts
    in this order, empty buckets included. *)
Theorem bucket_assignment (p : Q) (Hp : (0 <= p)%Q) :
  (exists i, bucket p = Own i /\ 0 <= i <= 5) /\
  (bucket p = Own 0 <-> (p <= 50)%Q) /\
  (bucket p = Own 1 <-> (50 < p)%Q /\ (p <= 100)%Q) /\
  (bucket p = Own 2 <-> (100 < p)%Q /\ (p <= 200)%Q) /\
  (bucket p = Own 3 <-> (200 < p)%Q /\ (p <= 500)%Q) /\
  (bucket p = Own 4 <-> (500 < p)%Q /\ (p <= 1000)%Q) /\
  (bucket p = Own 5 <-> (1000 < p)%Q) /\
  bucket 50 = Own 0 /\ bucket 50.01 = Own 1 /\
  bucket 1000 = Own 4 /\ bucket 1000.01 = Own 5 /\
  (forall selectedMonth year range w,
      truthy selectedMonth = true ->
      truthy_year year = true ->
      resolve selectedMonth (year_number year) = Return range ->
      storeUp w = true ->
      fst (getPriceRangeData selectedMonth year w) =
        Return {| data := histogram range (docs w) |} /\
      List.length (histogram range (docs w)) = 6%nat /\
      forall i, (i < 6)%nat ->
        nth i (histogram range (docs w)) 0 =
        count (filter (in_bucket (Z.of_nat i))
                 (match_stage (startDate range) (endDate range) (docs w)))).
Proof.
  assert (Hb : (exists i, bucket p = Own i /\ 0 <= i <= 5) /\
               (bucket p = Own 0 <-> (p <= 50)%Q) /\
               (bucket p = Own 1 <-> (50 < p)%Q /\ (p <= 100)%Q) /\
               (bucket p = Own 2 <-> (100 < p)%Q /\ (p <= 200)%Q) /\
               (bucket p = Own 3 <-> (200 < p)%Q /\ (p <= 500)%Q) /\
               (bucket p = Own 4 <-> (500 < p)%Q /\ (p <= 1000)%Q) /\
               (bucket p = Own 5 <-> (1000 < p)%Q)).
  { unfold bucket, priceRange.
    change (gt p 1000) with (negb (lte p 1000)).
    destruct (lte_spec p 50);
      [| destruct (lte_spec p 100);
         [| destruct (lte_spec p 200);
            [| destruct (lte_spec p 500);
               [| destruct (lte_spec p 1000) ]]]];
      cbn [negb];
      (split; [eexists; split; [reflexivity | lia] |]);
      repeat split; intros; try discriminate; try lra;
      try reflexivity;
      try (exfalso; lra). }
  destruct Hb as (H0 & H1 & H2 & H3 & H4 & H5 & H6).
  repeat (split; [assumption || reflexivity |]).
  intros selectedMonth year range w Hm Hy Hres Hup.
  rewrite getPriceRangeData_reply. unfold price_reply.
  rewrite Hm, Hy, Hres, Hup. cbn [negb orb fst].
  split; [reflexivity |]. split; [reflexivity |].
  intros i Hi.
  do 6 (destruct i as [| i]; [reflexivity |]). lia.
Qed.

Lemma bucket_assignment_witness :
  (0 <= 75)%Q /\ (bucket 75 = Own 1 <-> (50 < 75)%Q /\ (75 <= 100)%Q).
Proof.
  assert (H : (0 <= 75)%Q) by (unfold Qle; cbn; lia).
  split; [exact H |].
  exact (proj1 (proj2 (proj2 (bucket_assignment 75 H)))).
Defined.

(** *** Short circuit and fallback of the two reducers *)

Lemma call_times_fixed {A} (n : nat) (m : M A) (w : World) (a : A) :
  m w = (Return a, w) ->
  call_times n m w = (repeat (Return a) n, w).
Proof.
  intros H. induction n as [| n IH]; [reflexivity |].
  cbn [call_times repeat]. rewrite H, IH. reflexivity.
Qed.

(** C7: with month or year absent or falsy, Price Histogram returns six
    zeros and Category Breakdown returns the empty sequence; the world,
    with its count of store calls, is left as it was, whether or not the
    store can be reached; and any number of repeated calls gives the same
    results and the same world. *)
Theorem reducers_short_circuit (selectedMonth : value) (year : option number)
    (w : World) (n : nat)
    (Hmissing : truthy selectedMonth = false \/ truthy_year year = false) :
  getPriceRangeData selectedMonth year w =
    (Return {| data := [0; 0; 0; 0; 0; 0] |}, w) /\
  getCategoryData selectedMonth year w = (Return {| rows := [] |}, w) /\
  storeCalls (snd (getPriceRangeData selectedMonth year w)) = storeCalls w /\
  storeCalls (snd (getCategoryData selectedMonth year w)) = storeCalls w /\
  call_times n (getPriceRangeData selectedMonth year) w =
    (repeat (Return {| data := [0; 0; 0; 0; 0; 0] |}) n, w) /\
  call_times n (getCategoryData selectedMonth year) w =
    (repeat (Return {| rows := [] |}) n, w).
Proof.
  assert (Hguard : negb (truthy selectedMonth) || negb (truthy_year year) = true).
  { destruct Hmissing as [-> | ->]; [reflexivity | apply orb_true_r]. }
  assert (Hp : getPriceRangeData selectedMonth year w =
               (Return {| data := [0; 0; 0; 0; 0; 0] |}, w)).
  { rewrite getPriceRangeData_reply. unfold price_reply. rewrite Hguard. reflexivity. }
  assert (Hc : getCategoryData selectedMonth year w = (Return {| rows := [] |}, w)).
  { rewrite getCategoryData_reply. unfold category_reply. rewrite Hguard. reflexivity. }
  split; [exact Hp |]. split; [exact Hc |].
  rewrite Hp, Hc. cbn [snd].
  split; [reflexivity |]. split; [reflexivity |].
  split; apply call_times_fixed; assumption.
Qed.

Lemma reducers_short_circuit_witness :
  call_times 3 (getPriceRangeData VUndefined (Some (Num 2022)))
             (world_of march_2022) =
  (repeat (Return {| data := [0; 0; 0; 0; 0; 0] |}) 3, world_of march_2022).
Proof.
  exact (proj1 (proj2 (proj2 (proj2 (proj2
           (reducers_short_circuit VUndefined (Some (Num 2022))
              (world_of march_2022) 3 (or_introl eq_refl))))))).
Defined.

(** C8: whenever the try block of a reducer throws, the reducer returns
    its default (six zeros, the empty sequence) from the world the block
    left; it returns what the block returns otherwise; so it never
    throws.  The block does throw when the resolver rejects the month and
    when the store cannot be reached. *)
Theorem reducers_never_throw (selectedMonth : value) (year : option number)
    (w : World) :
  match getPriceRangeData_try selectedMonth year w with
  | (Return r, w') => getPriceRangeData selectedMonth year w = (Return r, w')
  | (Throw _, w') =>
      getPriceRangeData selectedMonth year w =
      (Return {| data := [0; 0; 0; 0; 0; 0] |}, w')
  end /\
  match getCategoryData_try selectedMonth year w with
  | (Return r, w') => getCategoryData selectedMonth year w = (Return r, w')
  | (Throw _, w') =>
      getCategoryData selectedMonth year w = (Return {| rows := [] |}, w')
  end /\
  (exists r w', getPriceRangeData selectedMonth year w = (Return r, w')) /\
  (exists r w', getCategoryData selectedMonth year w = (Return r, w')) /\
  fst (getPriceRangeData_try (VStr "Xyz") (Some (Num 2022)) w) =
    Throw (JsError "Invalid month") /\
  fst (getCategoryData_try (VStr "Xyz") (Some (Num 2022)) w) =
    Throw (JsError "Invalid month") /\
  fst (getPriceRangeData (VStr "Xyz") (Some (Num 2022)) w) =
    Return {| data := [0; 0; 0; 0; 0; 0] |} /\
  fst (getCategoryData (VStr "Xyz") (Some (Num 2022)) w) =
    Return {| rows := [] |} /\
  (forall ds,
      fst (getPriceRangeData_try (VStr "Mar") (Some (Num 2022)) (unreachable ds)) =
        Throw StoreError /\
      fst (getCategoryData_try (VStr "Mar") (Some (Num 2022)) (unreachable ds)) =
        Throw StoreError /\
      fst (getPriceRangeData (VStr "Mar") (Some (Num 2022)) (unreachable ds)) =
        Return {| data := [0; 0; 0; 0; 0; 0] |} /\
      fst (getCategoryData (VStr "Mar") (Some (Num 2022)) (unreachable ds)) =
        Return {| rows := [] |}).
Proof.
  split; [| split].
  - unfold getPriceRangeData, try_catch.
    destruct (getPriceRangeData_try selectedMonth year w) as [[r | err] w']; reflexivity.
  - unfold getCategoryData, try_catch.
    destruct (getCategoryData_try selectedMonth year w) as [[r | err] w']; reflexivity.
  - split; [rewrite getPriceRangeData_reply; eauto |].
    split; [rewrite getCategoryData_reply; eauto |].
    repeat split; reflexivity.
Qed.

Lemma place_unknown (result : list Z) (item : Group) :
  known_label (fst item) = false -> place result item = result.
Proof.
  unfold known_label, place, get_property.
  destruct (own_property priceRangeMapping (fst item)); [discriminate |].
  intros _. destruct (existsb _ _); reflexivity.
Qed.

Lemma fold_place_known (items : list Group) (result : list Z) :
  fold_left place items result =
  fold_left place (filter (fun item => known_label (fst item)) items) result.
Proof.
  revert result. induction items as [| item rest IH]; intros result; [reflexivity |].
  cbn [fold_left filter].
  destruct (known_label (fst item)) eqn:E; cbn [fold_left].
  - apply IH.
  - rewrite (place_unknown result item E). apply IH.
Qed.

(** C9: for every input the histogram's [data] is an array of exactly six
    counts, none negative; whatever groups the [forEach] is run over, the
    array keeps its six slots, and a group whose label has no entry in the
    mapping (such as "Unknown") leaves the array as it is. *)
Theorem histogram_has_six_counts (selectedMonth : value) (year : option number)
    (w : World) :
  (exists counts,
      fst (getPriceRangeData selectedMonth year w) = Return {| data := counts |} /\
      List.length counts = 6%nat /\
      Forall (fun c => 0 <= c) counts) /\
  (forall items,
      List.length (fold_left place items zeros) = 6%nat /\
      fold_left place items zeros =
      fold_left place (filter (fun item => known_label (fst item)) items) zeros) /\
  (forall result item,
      known_label (fst item) = false -> place result item = result) /\
  known_label "Unknown" = false /\
  (forall result c, place result ("Unknown", c) = result).
Proof.
  split.
  - rewrite getPriceRangeData_reply. unfold price_reply.
    destruct (negb (truthy selectedMonth) || negb (truthy_year year)).
    + exists zeros. cbn [fst]. repeat split; try reflexivity.
      repeat constructor; lia.
    + destruct (resolve selectedMonth (year_number year)) as [range | err].
      * destruct (storeUp w); cbn [fst].
        -- exists (histogram range (docs w)).
           split; [reflexivity |]. split; [reflexivity | apply histogram_nonneg].
        -- exists zeros. repeat split; try reflexivity. repeat constructor; lia.
      * exists zeros. cbn [fst]. repeat split; try reflexivity.
        repeat constructor; lia.
  - split; [| split; [| split]].
    + intros items. split; [| apply fold_place_known].
      change zeros with [0; 0; 0; 0; 0; 0]. rewrite fold_place. reflexivity.
    + exact place_unknown.
    + reflexivity.
    + intros result c. apply place_unknown. reflexivity.
Qed.

(** *** Requests that are rejected *)

Lemma getStatistics_missing (req : Request) (w : World) :
  sent (res w) = None ->
  truthy (query_month req) = false \/ truthy (query_year req) = false ->
  getStatistics req w =
  (Return RetResponse,
   {| docs := docs w; storeUp := storeUp w; storeCalls := storeCalls w;
      res := {| statusCode := 400;
                sent := Some (400, ErrorBody "Month and Year are required") |} |}).
Proof.
  intros Hfresh Hmissing.
  assert (Hguard : negb (truthy (query_month req)) || negb (truthy (query_year req)) = true).
  { destruct Hmissing as [-> | ->]; [reflexivity | apply orb_true_r]. }
  unfold getStatistics, try_catch, bind. rewrite Hguard.
  unfold res_status, res_json, ret. world_simpl. rewrite Hfresh. reflexivity.
Qed.

Lemma getStatistics_rejected (req : Request) (w : World) (err : Error) :
  sent (res w) = None ->
  truthy (query_month req) = true ->
  truthy (query_year req) = true ->
  resolve (query_month req) (parseInt (query_year req)) = Throw err ->
  getStatistics req w =
  (Return RetUndefined,
   {| docs := docs w; storeUp := storeUp w; storeCalls := storeCalls w;
      res := {| statusCode := 500;
                sent := Some (500, ErrorBody "Error fetching statistics") |} |}).
Proof.
  intros Hfresh Hm Hy Hres.
  unfold getStatistics, try_catch, bind, lift. rewrite Hm, Hy. cbn [negb orb].
  change (pure_bind (getMonthNumber (query_month req)) _)
    with (resolve (query_month req) (parseInt (query_year req))).
  rewrite Hres.
  unfold res_status, res_json, ret. world_simpl. rewrite Hfresh. reflexivity.
Qed.

(** Whatever the request, [getStatistics] itself sends a body on a
    response that was not sent yet, and that body is never the combined
    payload; it hands nothing back once month and year are present. *)
Lemma getStatistics_sends (req : Request) (w : World) :
  sent (res w) = None ->
  exists ret w' code body,
    getStatistics req w = (Return ret, w') /\
    sent (res w') = Some (code, body) /\
    (forall s p c, body <> CombinedBody s p c) /\
    (truthy (query_month req) = true -> truthy (query_year req) = true ->
     ret = RetUndefined).
Proof.
  intros Hfresh.
  destruct (truthy (query_month req)) eqn:Hm;
    [destruct (truthy (query_year req)) eqn:Hy |].
  - destruct (resolve (query_month req) (parseInt (query_year req)))
      as [[[s |] [e |]] | err] eqn:Hres.
    + destruct (storeUp w) eqn:Hup.
      * rewrite (getStatistics_resolved req w s e Hfresh Hup Hm Hy Hres).
        do 4 eexists. world_simpl.
        split; [reflexivity |]. split; [reflexivity |]. split; [discriminate | reflexivity].
      * unfold getStatistics, try_catch, bind, lift. rewrite Hm, Hy. cbn [negb orb].
        change (pure_bind (getMonthNumber (query_month req)) _)
          with (resolve (query_month req) (parseInt (query_year req))).
        rewrite Hres. run.
        do 4 eexists.
        split; [reflexivity |]. split; [reflexivity |]. split; [discriminate | reflexivity].
    + unfold getStatistics, try_catch, bind, lift. rewrite Hm, Hy. cbn [negb orb].
      change (pure_bind (getMonthNumber (query_month req)) _)
        with (resolve (query_month req) (parseInt (query_year req))).
      rewrite Hres. run.
      do 4 eexists.
      split; [reflexivity |]. split; [reflexivity |]. split; [discriminate | reflexivity].
    + unfold getStatistics, try_catch, bind, lift. rewrite Hm, Hy. cbn [negb orb].
      change (pure_bind (getMonthNumber (query_month req)) _)
        with (resolve (query_month req) (parseInt (query_year req))).
      rewrite Hres. run.
      do 4 eexists.
      split; [reflexivity |]. split; [reflexivity |]. split; [discriminate | reflexivity].
    + unfold getStatistics, try_catch, bind, lift. rewrite Hm, Hy. cbn [negb orb].
      change (pure_bind (getMonthNumber (query_month req)) _)
        with (resolve (query_month req) (parseInt (query_year req))).
      rewrite Hres. run.
      do 4 eexists.
      split; [reflexivity |]. split; [reflexivity |]. split; [discriminate | reflexivity].
    + rewrite (getStatistics_rejected req w err Hfresh Hm Hy Hres).
      do 4 eexists. world_simpl.
      split; [reflexivity |]. split; [reflexivity |]. split; [discriminate | reflexivity].
  - rewrite (getStatistics_missing req w Hfresh (or_intror Hy)).
    do 4 eexists. world_simpl.
    split; [reflexivity |]. split; [reflexivity |]. split; [discriminate | discriminate].
  - rewrite (getStatistics_missing req w Hfresh (or_introl Hm)).
    do 4 eexists. world_simpl.
    split; [reflexivity |]. split; [reflexivity |]. split; [discriminate | discriminate].
Qed.

Lemma parseInt_truthy (v : value) :
  truthy_number (parseInt v) = true -> truthy v = true.
Proof.
  destruct v as [| s | repr]; cbn [truthy]; [discriminate | | reflexivity].
  destruct s; [discriminate | reflexivity].
Qed.

Lemma price_reply_response (selectedMonth : value) (year : option number) (w : World) :
  res (snd (price_reply selectedMonth year w)) = res w.
Proof.
  unfold price_reply.
  destruct (negb (truthy selectedMonth) || negb (truthy_year year)); [reflexivity |].
  destruct (resolve selectedMonth (year_number year)); [| reflexivity].
  destruct (storeUp w); reflexivity.
Qed.

Lemma category_reply_response (selectedMonth : value) (year : option number) (w : World) :
  res (snd (category_reply selectedMonth year w)) = res w.
Proof.
  unfold category_reply.
  destruct (negb (truthy selectedMonth) || negb (truthy_year year)); [reflexivity |].
  destruct (resolve selectedMonth (year_number year)); [| reflexivity].
  destruct (storeUp w); reflexivity.
Qed.

Lemma getCombinedData_missing (req : Request) (w : World) :
  sent (res w) = None ->
  truthy (query_month req) = false \/
  truthy_number (parseInt (query_year req)) = false ->
  getCombinedData req w =
  (Return tt,
   {| docs := docs w; storeUp := storeUp w; storeCalls := storeCalls w;
      res := {| statusCode := 400;
                sent := Some (400, ErrorBody "Month and Year are required") |} |}).
Proof.
  intros Hfresh Hmissing.
  assert (Hguard : negb (truthy (query_month req)) ||
                   negb (truthy_number (parseInt (query_year req))) = true).
  { destruct Hmissing as [-> | ->]; [reflexivity | apply orb_true_r]. }
  unfold getCombinedData, try_catch, bind. rewrite Hguard. run. reflexivity.
Qed.

(** With month and year present, the combined handler finds the response
    already sent by [getStatistics]: its own send throws, so does the one
    of its catch block, and what went out is what [getStatistics] sent. *)
Lemma getCombinedData_present (req : Request) (w : World) :
  sent (res w) = None ->
  truthy (query_month req) = true ->
  truthy_number (parseInt (query_year req)) = true ->
  fst (getStatistics req w) = Return RetUndefined /\
  fst (getCombinedData req w) = Throw HeadersSent /\
  sent (res (snd (getCombinedData req w))) = sent (res (snd (getStatistics req w))).
Proof.
  intros Hfresh Hm Hy.
  destruct (getStatistics_sends req w Hfresh)
    as (ret & w1 & code & body & Hrun & Hsent & _ & Hret).
  specialize (Hret Hm (parseInt_truthy _ Hy)). subst ret.
  rewrite Hrun. cbn [fst snd]. split; [reflexivity |].
  unfold getCombinedData, try_catch, bind, Promise_all3.
  rewrite Hm, Hy. cbn [negb orb]. rewrite Hrun.
  rewrite getPriceRangeData_reply, getCategoryData_reply.
  set (w2 := snd (price_reply _ _ w1)).
  set (w3 := snd (category_reply _ _ w2)).
  assert (Hsent3 : sent (res w3) = Some (code, body)).
  { subst w3 w2. rewrite category_reply_response, price_reply_response. exact Hsent. }
  unfold res_status, res_json.
  repeat progress (world_simpl; rewrite ?Hsent3).
  rewrite Hsent. split; reflexivity.
Qed.

Lemma resolve_missing_month (s : string) (year : number) :
  get_property monthMap (trim s) = Missing ->
  resolve (VStr s) year = Throw (JsError "Invalid month").
Proof.
  intros H. unfold resolve, getMonthNumber. rewrite H.
  destruct (negb (truthy (VStr s))); reflexivity.
Qed.

(** C5, as amended: on the statistics endpoint a request whose month or
    year is absent or empty is answered 400 "Month and Year are required",
    and so is, on the combined-data endpoint, a request whose month is
    absent or empty or whose year parseInt reads as NaN or 0; on the
    statistics endpoint a request whose month and year are present but
    rejected by the resolver (the month is not a string, or names no entry
    of the month table once trimmed, or the year is not numeric) is
    answered 500 "Error fetching statistics". *)
Theorem parameter_errors (req : Request) (w : World)
    (Hfresh : res w = fresh_response) :
  (truthy (query_month req) = false \/ truthy (query_year req) = false ->
   sent (res (snd (getStatistics req w))) =
     Some (400, ErrorBody "Month and Year are required")) /\
  (forall err,
      truthy (query_month req) = true ->
      truthy (query_year req) = true ->
      resolve (query_month req) (parseInt (query_year req)) = Throw err ->
      sent (res (snd (getStatistics req w))) =
        Some (500, ErrorBody "Error fetching statistics")) /\
  (truthy (query_month req) = false \/
   truthy_number (parseInt (query_year req)) = false ->
   sent (res (snd (getCombinedData req w))) =
     Some (400, ErrorBody "Month and Year are required")) /\
  (forall s year,
      get_property monthMap (trim s) = Missing ->
      resolve (VStr s) year = Throw (JsError "Invalid month")) /\
  (forall repr year, resolve (VObj repr) year = Throw (JsError "Invalid month")) /\
  (forall name m,
      In (name, m) monthMap ->
      resolve (VStr name) NaN = Throw (JsError "Invalid year")) /\
  get_property monthMap (trim "Xyz") = Missing /\
  parseInt (VStr "abc") = NaN.
Proof.
  assert (Hsent : sent (res w) = None) by (rewrite Hfresh; reflexivity).
  split; [| split; [| split]].
  - intros Hmissing. rewrite (getStatistics_missing req w Hsent Hmissing). reflexivity.
  - intros err Hm Hy Hres.
    rewrite (getStatistics_rejected req w err Hsent Hm Hy Hres). reflexivity.
  - intros Hmissing. rewrite (getCombinedData_missing req w Hsent Hmissing). reflexivity.
  - split; [exact resolve_missing_month |].
    split; [reflexivity |].
    split; [| split; reflexivity].
    intros name m Hin. unfold resolve.
    rewrite (getMonthNumber_own _ _ Hin). reflexivity.
Qed.

Lemma parameter_errors_witness :
  sent (res (snd (getStatistics (request "Xyz" "2022") (world_of [])))) =
    Some (500, ErrorBody "Error fetching statistics") /\
  sent (res (snd (getStatistics (request "" "2022") (world_of [])))) =
    Some (400, ErrorBody "Month and Year are required").
Proof.
  split.
  - exact (proj1 (proj2 (parameter_errors (request "Xyz" "2022") (world_of []) eq_refl))
             (JsError "Invalid month") eq_refl eq_refl eq_refl).
  - exact (proj1 (parameter_errors (request "" "2022") (world_of []) eq_refl)
             (or_introl eq_refl)).
Defined.

(** C5 fails as stated: on the statistics endpoint a month that is no
    month name, and a year that is not a number, are not answered with a
    400-class status. *)
Lemma malformed_parameters_not_client_error :
  ~ client_error
      (sent (res (snd (getStatistics (request "Xyz" "2022") (world_of []))))) /\
  ~ client_error
      (sent (res (snd (getStatistics (request "Mar" "abc") (world_of []))))).
Proof.
  repeat split; intros (code & body & H & Hcode);
    vm_compute in H; inversion H; subst; lia.
Qed.

(** *** The combined endpoint *)

(** C1, at the request month=Mar, year=2022 on the three March 2022
    records: [getStatistics] hands nothing back to the combiner and sends
    the bare statistics itself; the combiner's own send is rejected, and
    what the client receives is {345, 2, 1}, not a combined payload.  On
    no request and no store does the client receive a combined payload. *)
Theorem combined_payload_never_sent :
  fst (getStatistics (request "Mar" "2022") (world_of march_2022)) =
    Return RetUndefined /\
  fst (getCombinedData (request "Mar" "2022") (world_of march_2022)) =
    Throw HeadersSent /\
  sent (res (snd (getCombinedData (request "Mar" "2022") (world_of march_2022)))) =
    Some (200, StatisticsBody 345 2 1) /\
  (forall req ds up calls code statistics priceRangeData categoryData,
      sent (res (snd (getCombinedData req
                        {| docs := ds; storeUp := up; storeCalls := calls;
                           res := fresh_response |}))) <>
      Some (code, CombinedBody statistics priceRangeData categoryData)).
Proof.
  split; [reflexivity |]. split; [reflexivity |]. split; [reflexivity |].
  intros req ds up calls code st pr ca.
  set (w := {| docs := ds; storeUp := up; storeCalls := calls; res := fresh_response |}).
  assert (Hsent : sent (res w) = None) by reflexivity.
  destruct (truthy (query_month req)) eqn:Hm;
    [destruct (truthy_number (parseInt (query_year req))) eqn:Hy |].
  - destruct (getCombinedData_present req w Hsent Hm Hy) as (_ & _ & ->).
    destruct (getStatistics_sends req w Hsent)
      as (ret & w1 & code' & body & Hrun & Hsent1 & Hbody & _).
    rewrite Hrun. cbn [snd]. rewrite Hsent1.
    intros [= _ Hb]. exact (Hbody _ _ _ Hb).
  - rewrite (getCombinedData_missing req w Hsent (or_intror Hy)). discriminate.
  - rewrite (getCombinedData_missing req w Hsent (or_introl Hm)). discriminate.
Qed.

(** *** Reseeding *)

Lemma validate_all_rejects (batch : list RawDoc) (r : RawDoc) :
  In r batch ->
  raw_date_cast r = None \/ isValidDate (raw_date_reparse r) = false ->
  validate_all batch = None.
Proof.
  intros Hin Hbad. induction batch as [| x rest IH]; [contradiction |].
  cbn [validate_all]. destruct Hin as [-> | Hin].
  - assert (Hr : validate r = None).
    { unfold validate.
      destruct (raw_title r), (raw_description r), (raw_price r), (raw_category r),
        (raw_date_cast r), (raw_sold r), (raw_image r); try reflexivity.
      destruct Hbad as [Hbad | Hbad]; [discriminate | rewrite Hbad; reflexivity]. }
    rewrite Hr. reflexivity.
  - rewrite (IH Hin). destruct (validate x); reflexivity.
Qed.



(** *** More on the Date Range Resolver *)

Lemma own_property_In (obj : list (string * Z)) (key : string) (v : Z) :
  own_property obj key = Some v -> In (key, v) obj.
Proof.
  induction obj as [| [k x] rest IH]; cbn [own_property In]; [discriminate |].
  destruct (String.eqb_spec k key) as [-> | Hne].
  - intros [= ->]. left. reflexivity.
  - intros H. right. apply IH. exact H.
Qed.

Lemma append_empty (s : string) : s ++ "" = s.
Proof. induction s as [| c s IH]; cbn; [reflexivity | rewrite IH; reflexivity]. Qed.

Lemma trim_start_step (c : ascii) (rest : string) :
  trim_start (String c rest) =
  if is_space c then trim_start rest
  else
    match rest with
    | EmptyString => String c rest
    | String c1 rest1 =>
        if is_space2 c c1 then trim_start rest1
        else
          match rest1 with
          | EmptyString => String c rest
          | String c2 rest2 =>
              if is_space3 c c1 c2 then trim_start rest2 else String c rest
          end
    end.
Proof. reflexivity. Qed.

Lemma trim_end_step (c : ascii) (rest : string) :
  trim_end (String c rest) =
  if all_space (String c rest) then EmptyString else String c (trim_end rest).
Proof. reflexivity. Qed.

Lemma solid_trim_start (c : ascii) (rest : string) :
  solid_byte c = true -> trim_start (String c rest) = String c rest.
Proof.
  unfold solid_byte. intros H.
  apply andb_true_iff in H as [H1 H2].
  apply negb_true_iff in H1, H2.
  repeat (apply orb_false_iff in H2 as [H2 ?]).
  rewrite trim_start_step, H1.
  destruct rest as [| c1 rest1]; [reflexivity |].
  unfold is_space2. rewrite H2. cbn [andb].
  destruct rest1 as [| c2 rest2]; [reflexivity |].
  unfold is_space3.
  repeat match goal with E : (N_of_ascii c =? _)%N = false |- _ => rewrite E; clear E end.
  reflexivity.
Qed.

Lemma trim_start_blank_bounded (n : nat) (pre s : string) :
  (String.length pre <= n)%nat -> all_space pre = true ->
  trim_start (pre ++ s) = trim_start s.
Proof.
  unfold all_space. revert pre. induction n as [| n IH]; intros pre Hlen Hblank.
  - destruct pre; [reflexivity | cbn in Hlen; lia].
  - destruct pre as [| c rest]; [reflexivity |].
    cbn [String.length append] in *.
    rewrite trim_start_step in Hblank. rewrite trim_start_step.
    destruct (is_space c); [apply IH; [lia | exact Hblank] |].
    destruct rest as [| c1 rest1]; [discriminate |].
    cbn [String.length append] in *.
    destruct (is_space2 c c1); [apply IH; [lia | exact Hblank] |].
    destruct rest1 as [| c2 rest2]; [discriminate |].
    cbn [String.length append] in *.
    destruct (is_space3 c c1 c2); [apply IH; [lia | exact Hblank] | discriminate].
Qed.

Lemma trim_start_blank (pre s : string) :
  blank pre = true -> trim_start (pre ++ s) = trim_start s.
Proof. apply (trim_start_blank_bounded (String.length pre)). lia. Qed.

Lemma trim_end_blank (s : string) : blank s = true -> trim_end s = "".
Proof.
  unfold blank. destruct s as [| c rest]; [reflexivity |].
  intros H. rewrite trim_end_step, H. reflexivity.
Qed.

Lemma trim_end_solid (core post : string) :
  forallb solid_byte (list_ascii_of_string core) = true ->
  trim_end (core ++ post) = core ++ trim_end post.
Proof.
  induction core as [| c rest IH]; [reflexivity |].
  cbn [list_ascii_of_string forallb]. intros H.
  apply andb_true_iff in H as [Hc Hrest].
  change (String c rest ++ post) with (String c (rest ++ post)).
  rewrite trim_end_step. unfold all_space.
  rewrite (solid_trim_start c _ Hc). cbn [String.eqb].
  rewrite (IH Hrest). reflexivity.
Qed.

(** White space around a string of solid bytes is what [trim] removes. *)
Lemma trim_padded (pre core post : string) :
  blank pre = true -> blank post = true -> solid core = true ->
  trim (pre ++ core ++ post) = core.
Proof.
  intros Hpre Hpost Hcore. unfold solid in Hcore.
  apply andb_true_iff in Hcore as [Hne Hsolid].
  unfold trim. rewrite (trim_start_blank pre _ Hpre).
  destruct core as [| c rest]; [discriminate |].
  pose proof Hsolid as Hc. cbn [list_ascii_of_string forallb] in Hc.
  apply andb_true_iff in Hc as [Hc _].
  change (String c rest ++ post) with (String c (rest ++ post)).
  rewrite (solid_trim_start c _ Hc).
  change (String c (rest ++ post)) with (String c rest ++ post).
  rewrite (trim_end_solid _ _ Hsolid), (trim_end_blank post Hpost).
  apply append_empty.
Qed.

Lemma getMonthNumber_trimmed (s : string) (m : Z) :
  In (trim s, m) monthMap -> getMonthNumber (VStr s) = Return (Own m).
Proof.
  intros Hin. unfold getMonthNumber.
  destruct (truthy (VStr s)) eqn:Ht; cbn [negb].
  - unfold monthMap in Hin. cbn [In] in Hin.
    repeat (destruct Hin as [Hin | Hin];
            [injection Hin as Hs Hm; rewrite <- Hs, <- Hm; reflexivity |]).
    contradiction.
  - exfalso. cbn [truthy] in Ht. apply negb_false_iff in Ht.
    apply String.eqb_eq in Ht. subst s.
    unfold monthMap in Hin. cbn [In] in Hin.
    repeat (destruct Hin as [Hin | Hin]; [discriminate Hin |]).
    contradiction.
Qed.

(** X1: the month names that [getMonthNumber] turns into a month number are
    exactly the strings which, once trimmed, are a key of the month table
    (so the match is case-sensitive and nothing but a string is taken);
    the number is then the table's, between 1 and 12. *)
Theorem month_number_iff_table_key (v : value) (m : Z) :
  (getMonthNumber v = Return (Own m) <->
   exists s, v = VStr s /\ In (trim s, m) monthMap) /\
  (getMonthNumber v = Return (Own m) -> 1 <= m <= 12) /\
  (forall year, getMonthNumber v = Return (Own m) ->
                resolve v NaN = Throw (JsError "Invalid year") /\
                resolve v (Num year) = getDateRange (Own m) (Num year)).
Proof.
  assert (Hiff : getMonthNumber v = Return (Own m) <->
                 exists s, v = VStr s /\ In (trim s, m) monthMap).
  { split.
    - destruct v as [| s | repr]; cbn [getMonthNumber]; try discriminate.
      destruct (negb (truthy (VStr s))); [discriminate |].
      unfold get_property.
      destruct (own_property monthMap (trim s)) as [n |] eqn:E.
      + cbn [truthy_property]. destruct (negb (negb (n =? 0))); [discriminate |].
        intros [= ->]. exists s. split; [reflexivity |].
        apply own_property_In. exact E.
      + destruct (existsb _ _); cbn [truthy_property negb]; discriminate.
    - intros (s & -> & Hin). apply getMonthNumber_trimmed. exact Hin. }
  split; [exact Hiff |]. split.
  - intros H. apply Hiff in H as (s & _ & Hin).
    apply monthMap_range in Hin. tauto.
  - intros year H. unfold resolve. rewrite H. split; reflexivity.
Qed.

(** X2: white space around a month name is ignored: a month name of the
    table, with any white space before and after it, gets its number. *)
Theorem month_name_padding (pre post name : string) (m : Z)
    (Hpre : blank pre = true)
    (Hpost : blank post = true)
    (Hname : In (name, m) monthMap) :
  getMonthNumber (VStr (pre ++ name ++ post)) = Return (Own m) /\
  forall year, resolve (VStr (pre ++ name ++ post)) year = resolve (VStr name) year.
Proof.
  assert (Htrim : trim (pre ++ name ++ post) = name).
  { apply trim_padded; try assumption.
    unfold monthMap in Hname. cbn [In] in Hname.
    repeat (destruct Hname as [Hname | Hname];
            [injection Hname as <- _; reflexivity |]).
    contradiction. }
  assert (H1 : getMonthNumber (VStr (pre ++ name ++ post)) = Return (Own m)).
  { apply getMonthNumber_trimmed. rewrite Htrim. exact Hname. }
  split; [exact H1 |].
  intros year. unfold resolve. rewrite H1, (getMonthNumber_own _ _ Hname). reflexivity.
Qed.

Lemma month_name_padding_witness :
  getMonthNumber (VStr (tab_nbsp ++ "Mar" ++ bom_ls_space)) = Return (Own 3).
Proof.
  exact (proj1 (month_name_padding tab_nbsp bom_ls_space "Mar" 3 eq_refl eq_refl
                  (or_intror (or_intror (or_introl eq_refl))))).
Defined.

Lemma month_start_following (y m : Z) :
  1 <= m <= 12 ->
  msPerDay * (DayFromYear (y + m / 12) +
              DaysBeforeMonth (InLeapYear (y + m / 12)) (m mod 12)) =
  month_start (fst (following y m)) (snd (following y m)).
Proof.
  intros Hm. unfold following, month_start.
  destruct (Z.eqb_spec m 12) as [-> | Hne]; cbn [fst snd].
  - reflexivity.
  - assert (H : m / 12 = 0 /\ m mod 12 = m) by (Z.to_euclidean_division_equations; lia).
    destruct H as [-> ->]. rewrite Z.add_0_r.
    replace (m + 1 - 1) with m by lia. reflexivity.
Qed.

(** On a plain year the resolver answers with the start of the month
    and the start of the month after it. *)
Lemma resolve_plain (name : string) (m y : Z) :
  In (name, m) monthMap -> plain_year y ->
  resolve (VStr name) (Num y) =
  Return {| startDate := Some (month_start y m);
            endDate := Some (month_start (fst (following y m))
                                         (snd (following y m))) |}.
Proof.
  intros Hin Hy. destruct (monthMap_range _ _ Hin) as [Hm _].
  unfold resolve. rewrite (getMonthNumber_own _ _ Hin). cbn [pure_bind].
  unfold getDateRange. cbn [isNaN ToNumber minus_one].
  rewrite !Date_UTC_day_one by (assumption || lia).
  rewrite (month_start_following y m Hm).
  assert (H : (m - 1) / 12 = 0 /\ (m - 1) mod 12 = m - 1)
    by (Z.to_euclidean_division_equations; lia).
  destruct H as [-> ->]. rewrite Z.add_0_r. reflexivity.
Qed.

Lemma month_start_increases (y m : Z) :
  1 <= m <= 12 ->
  month_start y m < month_start (fst (following y m)) (snd (following y m)).
Proof.
  intros Hm. unfold following, month_start.
  pose proof (InLeapYear_cases y) as Hl.
  destruct (Z.eqb_spec m 12) as [-> | Hne]; cbn [fst snd].
  - pose proof (month_length_december y) as H.
    rewrite DayFromYear_succ.
    change (1 - 1) with 0.
    assert (Hd : DaysInMonth y 12 = 31) by reflexivity.
    unfold msPerDay. lia.
  - pose proof (month_length y m) as H.
    replace (m + 1 - 1) with m by lia.
    assert (Hd : 28 <= DaysInMonth y m).
    { unfold DaysInMonth.
      assert (Hc : m = 1 \/ m = 2 \/ m = 3 \/ m = 4 \/ m = 5 \/ m = 6 \/
                   m = 7 \/ m = 8 \/ m = 9 \/ m = 10 \/ m = 11) by lia.
      repeat (destruct Hc as [-> | Hc]; [lia |]). subst m. lia. }
    unfold msPerDay. lia.
Qed.



Lemma Date_UTC_two_digit (y : Z) (month date : number) :
  0 <= y <= 99 ->
  Date_UTC (Num y) month date = Date_UTC (Num (1900 + y)) month date.
Proof.
  intros Hy. unfold Date_UTC, MakeFullYear.
  replace ((0 <=? y) && (y <=? 99)) with true
    by (symmetry; apply andb_true_iff; split; apply Z.leb_le; lia).
  replace ((0 <=? 1900 + y) && (1900 + y <=? 99)) with false
    by (symmetry; apply andb_false_iff; right; apply Z.leb_gt; lia).
  reflexivity.
Qed.

Lemma resolve_two_digit (month : value) (y : Z) :
  0 <= y <= 99 -> resolve month (Num y) = resolve month (Num (1900 + y)).
Proof.
  intros Hy. unfold resolve.
  destruct (getMonthNumber month) as [mn | err]; [| reflexivity].
  cbn [pure_bind]. unfold getDateRange. cbn [isNaN].
  rewrite !(Date_UTC_two_digit y) by exact Hy. reflexivity.
Qed.

(** X4: a one- or two-digit year is read as a year of the 1900s: for a year
    from 1 to 99 the resolver, both reducers and the statistics handler
    answer as they do for 1900 + year. *)
Theorem two_digit_year_is_read_as_1900s (month : value) (y : Z) (w : World)
    (Hy : 1 <= y <= 99) :
  resolve month (Num y) = resolve month (Num (1900 + y)) /\
  getPriceRangeData month (Some (Num y)) w =
    getPriceRangeData month (Some (Num (1900 + y))) w /\
  getCategoryData month (Some (Num y)) w =
    getCategoryData month (Some (Num (1900 + y))) w /\
  (forall req req',
      query_month req = month -> query_month req' = month ->
      parseInt (query_year req) = Num y ->
      parseInt (query_year req') = Num (1900 + y) ->
      getStatistics req w = getStatistics req' w).
Proof.
  assert (Hres : resolve month (Num y) = resolve month (Num (1900 + y)))
    by (apply resolve_two_digit; lia).
  assert (Ht : truthy_year (Some (Num y)) = true /\
               truthy_year (Some (Num (1900 + y))) = true).
  { cbn [truthy_year truthy_number]. split; apply negb_true_iff, Z.eqb_neq; lia. }
  destruct Ht as [Ht1 Ht2].
  split; [exact Hres |]. split; [| split].
  - rewrite !getPriceRangeData_reply. unfold price_reply.
    rewrite Ht1, Ht2. cbn [year_number]. rewrite Hres. reflexivity.
  - rewrite !getCategoryData_reply. unfold category_reply.
    rewrite Ht1, Ht2. cbn [year_number]. rewrite Hres. reflexivity.
  - intros req req' Hm Hm' Hp Hp'.
    assert (Hy1 : truthy (query_year req) = true).
    { apply parseInt_truthy. rewrite Hp. exact Ht1. }
    assert (Hy2 : truthy (query_year req') = true).
    { apply parseInt_truthy. rewrite Hp'. exact Ht2. }
    unfold getStatistics, try_catch, bind, lift.
    rewrite Hm, Hm', Hy1, Hy2, Hp, Hp'.
    change (pure_bind (getMonthNumber month)
              (fun monthNumber => getDateRange monthNumber (Num y)))
      with (resolve month (Num y)).
    change (pure_bind (getMonthNumber month)
              (fun monthNumber => getDateRange monthNumber (Num (1900 + y))))
      with (resolve month (Num (1900 + y))).
    rewrite Hres. reflexivity.
Qed.

Lemma two_digit_year_is_read_as_1900s_witness :
  resolve (VStr "Mar") (Num 22) = resolve (VStr "Mar") (Num 1922).
Proof.
  refine (proj1 (two_digit_year_is_read_as_1900s (VStr "Mar") 22 (world_of []) _)).
  lia.
Defined.

Lemma DayFromYear_beyond (y : Z) :
  (275761 <= y -> 100000110 <= DayFromYear y) /\
  (y <= -271821 -> DayFromYear y <= -100000109) /\
  (y <= -271822 -> DayFromYear y <= -100000474).
Proof.
  unfold DayFromYear. Z.to_euclidean_division_equations. lia.
Qed.

Lemma Date_UTC_unreachable (y m : Z) :
  unreachable_year y -> 0 <= m <= 12 ->
  Date_UTC (Num y) (Num m) (Num 1) = NaN.
Proof.
  intros Hy Hm. unfold Date_UTC, MakeFullYear.
  replace ((0 <=? y) && (y <=? 99)) with false
    by (unfold unreachable_year in Hy; symmetry; apply andb_false_iff; lia).
  unfold MakeDay, TimeClip.
  pose proof (DayFromYear_beyond (y + m / 12)) as (Hhi & Hlo1 & Hlo2).
  pose proof (InLeapYear_cases (y + m / 12)) as Hl.
  pose proof (DaysBeforeMonth_bounds (InLeapYear (y + m / 12)) (m mod 12)) as Hb.
  assert (Hq : 0 <= m / 12 <= 1) by (Z.to_euclidean_division_equations; lia).
  set (d := DayFromYear (y + m / 12)) in *.
  set (b := DaysBeforeMonth (InLeapYear (y + m / 12)) (m mod 12)) in *.
  assert (Hb' : 0 <= b <= 335) by (apply Hb; lia).
  assert (Hout : 100000000 < d + b \/ d + b < -100000000).
  { destruct Hy as [Hy | Hy]; [left; lia | right].
    destruct (Z.eq_dec m 12) as [-> | Hne].
    - change (DaysBeforeMonth (InLeapYear (y + 12 / 12)) (12 mod 12)) with 0 in b.
      subst b. change (12 / 12) with 1 in *. lia.
    - assert (m / 12 = 0) by (Z.to_euclidean_division_equations; lia). lia. }
  replace (Z.abs ((d + b + 1 - 1) * msPerDay) <=? 8640000000000000) with false
    by (symmetry; apply Z.leb_gt; unfold msPerDay; lia).
  reflexivity.
Qed.

Lemma in_range_empty (s : Z) (ds : list Doc) : filter (in_range s s) ds = [].
Proof.
  induction ds as [| d ds IH]; [reflexivity |].
  cbn [filter]. unfold in_range at 1.
  destruct (dateOfSale d) as [t |]; [| exact IH].
  replace ((s <=? t) && (t <? s)) with false; [exact IH |].
  symmetry. apply andb_false_iff.
  destruct (Z.leb_spec s t); [right; apply Z.ltb_ge; lia | left; reflexivity].
Qed.

(** What the three read paths do with an interval of two Invalid
    Dates. *)
Lemma invalid_interval_replies (req : Request) (w : World) (year : number) :
  res w = fresh_response ->
  truthy (query_month req) = true ->
  truthy_number year = true ->
  parseInt (query_year req) = year ->
  resolve (query_month req) year =
    Return {| startDate := None; endDate := None |} ->
  sent (res (snd (getStatistics req w))) =
    Some (500, ErrorBody "Error fetching statistics") /\
  fst (getPriceRangeData (query_month req) (Some year) w) =
    Return {| data := [0; 0; 0; 0; 0; 0] |} /\
  fst (getCategoryData (query_month req) (Some year) w) =
    Return {| rows := [] |}.
Proof.
  intros Hfresh Hm Hy Hp Hres.
  assert (Hsent : sent (res w) = None) by (rewrite Hfresh; reflexivity).
  assert (Hyear : truthy (query_year req) = true)
    by (apply parseInt_truthy; rewrite Hp; exact Hy).
  split; [| split].
  - unfold getStatistics, try_catch, bind, lift. rewrite Hm, Hyear, Hp.
    cbn [negb orb].
    change (pure_bind (getMonthNumber (query_month req)) _)
      with (resolve (query_month req) year).
    rewrite Hres. run. reflexivity.
  - rewrite getPriceRangeData_reply. unfold price_reply.
    cbn [truthy_year year_number]. rewrite Hm, Hy, Hres. cbn [negb orb].
    destruct (storeUp w); cbn [fst]; [| reflexivity].
    unfold histogram, match_stage. cbn [startDate endDate bson_date].
    rewrite in_range_empty. reflexivity.
  - rewrite getCategoryData_reply. unfold category_reply.
    cbn [truthy_year year_number]. rewrite Hm, Hy, Hres. cbn [negb orb].
    destruct (storeUp w); cbn [fst]; [| reflexivity].
    unfold categoryPipeline, match_stage. cbn [startDate endDate bson_date].
    rewrite in_range_empty. reflexivity.
Qed.

(** X5: a year beyond the range of time values (275761 and later, -271822
    and earlier) gives, with any month of the table, an interval of two
    Invalid Dates: statistics answers 500, the histogram is six zeros and
    the category breakdown is empty. *)
Theorem year_beyond_time_range (req : Request) (w : World)
    (name : string) (m y : Z)
    (Hfresh : res w = fresh_response)
    (Hmonth : query_month req = VStr name)
    (Hname : In (name, m) monthMap)
    (Hyear : parseInt (query_year req) = Num y)
    (Hbeyond : unreachable_year y) :
  resolve (VStr name) (Num y) =
    Return {| startDate := None; endDate := None |} /\
  sent (res (snd (getStatistics req w))) =
    Some (500, ErrorBody "Error fetching statistics") /\
  fst (getPriceRangeData (VStr name) (Some (Num y)) w) =
    Return {| data := [0; 0; 0; 0; 0; 0] |} /\
  fst (getCategoryData (VStr name) (Some (Num y)) w) =
    Return {| rows := [] |}.
Proof.
  destruct (monthMap_range _ _ Hname) as [Hm _].
  assert (Hres : resolve (VStr name) (Num y) =
                 Return {| startDate := None; endDate := None |}).
  { unfold resolve. rewrite (getMonthNumber_own _ _ Hname). cbn [pure_bind].
    unfold getDateRange. cbn [isNaN ToNumber minus_one].
    rewrite !Date_UTC_unreachable by (assumption || lia). reflexivity. }
  split; [exact Hres |].
  rewrite <- Hmonth.
  apply (invalid_interval_replies req w (Num y)); try assumption.
  - rewrite Hmonth. unfold monthMap in Hname. cbn [In] in Hname.
    repeat (destruct Hname as [Hname | Hname];
            [injection Hname as <- _; reflexivity |]).
    contradiction.
  - cbn [truthy_number]. apply negb_true_iff, Z.eqb_neq.
    unfold unreachable_year in Hbeyond. lia.
  - rewrite Hmonth. exact Hres.
Qed.

Lemma year_beyond_time_range_witness :
  sent (res (snd (getStatistics (request "Mar" "300000") (world_of march_2022)))) =
  Some (500, ErrorBody "Error fetching statistics").
Proof.
  refine (proj1 (proj2 (year_beyond_time_range (request "Mar" "300000")
                          (world_of march_2022) "Mar" 3 300000
                          eq_refl eq_refl _ eq_refl _))).
  - cbn. tauto.
  - unfold unreachable_year. lia.
Defined.

Lemma Date_UTC_no_month (y : Z) (date : number) :
  Date_UTC (Num y) NaN date = NaN.
Proof.
  unfold Date_UTC, MakeFullYear. destruct ((0 <=? y) && (y <=? 99)); reflexivity.
Qed.

(** X6: a month that names a member inherited from [Object.prototype]
    passes the month check, since the table lookup finds the inherited
    member; it yields no month number, so the interval is made of two
    Invalid Dates: statistics answers 500, the histogram is six zeros and
    the category breakdown is empty. *)
Theorem inherited_member_as_month (key : string) (req : Request) (w : World) (y : Z)
    (Hkey : In key object_prototype_keys)
    (Hfresh : res w = fresh_response)
    (Hmonth : query_month req = VStr key)
    (Hyear : parseInt (query_year req) = Num y)
    (Hy : y <> 0) :
  getMonthNumber (VStr key) = Return Inherited /\
  resolve (VStr key) (Num y) =
    Return {| startDate := None; endDate := None |} /\
  sent (res (snd (getStatistics req w))) =
    Some (500, ErrorBody "Error fetching statistics") /\
  fst (getPriceRangeData (VStr key) (Some (Num y)) w) =
    Return {| data := [0; 0; 0; 0; 0; 0] |} /\
  fst (getCategoryData (VStr key) (Some (Num y)) w) =
    Return {| rows := [] |}.
Proof.
  assert (Hmn : getMonthNumber (VStr key) = Return Inherited /\
                truthy (VStr key) = true).
  { unfold object_prototype_keys in Hkey. cbn [In] in Hkey.
    repeat (destruct Hkey as [<- | Hkey]; [split; reflexivity |]).
    contradiction. }
  destruct Hmn as [Hmn Htruthy].
  assert (Hres : resolve (VStr key) (Num y) =
                 Return {| startDate := None; endDate := None |}).
  { unfold resolve. rewrite Hmn. cbn [pure_bind].
    unfold getDateRange. cbn [isNaN ToNumber minus_one].
    rewrite !Date_UTC_no_month. reflexivity. }
  split; [exact Hmn |]. split; [exact Hres |].
  rewrite <- Hmonth.
  apply (invalid_interval_replies req w (Num y)); try assumption.
  - rewrite Hmonth. exact Htruthy.
  - cbn [truthy_number]. apply negb_true_iff, Z.eqb_neq. exact Hy.
  - rewrite Hmonth. exact Hres.
Qed.

Lemma inherited_member_as_month_witness :
  getMonthNumber (VStr "constructor") = Return Inherited /\
  sent (res (snd (getStatistics (request "constructor" "2022")
                    (world_of march_2022)))) =
  Some (500, ErrorBody "Error fetching statistics").
Proof.
  destruct (inherited_member_as_month "constructor"
              (request "constructor" "2022") (world_of march_2022) 2022)
    as (H1 & _ & H2 & _).
  - cbn. tauto.
  - reflexivity.
  - reflexivity.
  - reflexivity.
  - lia.
  - split; [exact H1 | exact H2].
Defined.

(** *** The statistics handler, case by case *)

Lemma getStatistics_find_fails (req : Request) (w : World) (range : DateRange) :
  sent (res w) = None ->
  truthy (query_month req) = true ->
  truthy (query_year req) = true ->
  resolve (query_month req) (parseInt (query_year req)) = Return range ->
  startDate range = None \/ endDate range = None \/ storeUp w = false ->
  fst (getStatistics req w) = Return RetUndefined /\
  sent (res (snd (getStatistics req w))) =
    Some (500, ErrorBody "Error fetching statistics").
Proof.
  intros Hsent Hm Hy Hres Hfail.
  unfold getStatistics, try_catch, bind, lift. rewrite Hm, Hy. cbn [negb orb].
  change (pure_bind (getMonthNumber (query_month req)) _)
    with (resolve (query_month req) (parseInt (query_year req))).
  rewrite Hres.
  destruct range as [[s |] [e |]]; cbn [startDate endDate] in Hfail.
  - destruct Hfail as [Hf | [Hf | Hf]]; try discriminate.
    run. split; reflexivity.
  - run. split; reflexivity.
  - run. split; reflexivity.
  - run. split; reflexivity.
Qed.

(** X7: on a response not yet used, the statistics handler never throws and
    sends exactly one reply: 400 exactly when month or year is absent or
    empty; 200, with the three totals, exactly when both are present, the
    resolver returns two proper dates and the store can be reached; 500
    with an error message in every other case. *)
Theorem statistics_reply_by_case (req : Request) (w : World)
    (Hfresh : res w = fresh_response) :
  exists ret code body,
    fst (getStatistics req w) = Return ret /\
    sent (res (snd (getStatistics req w))) = Some (code, body) /\
    (code = 400 <->
     truthy (query_month req) = false \/ truthy (query_year req) = false) /\
    (code = 200 <->
     truthy (query_month req) = true /\ truthy (query_year req) = true /\
     storeUp w = true /\
     exists s e, resolve (query_month req) (parseInt (query_year req)) =
                 Return {| startDate := Some s; endDate := Some e |}) /\
    (code = 200 \/ code = 400 \/ code = 500) /\
    (code = 200 -> exists totalSales sold notSold,
                     body = StatisticsBody totalSales sold notSold) /\
    (code <> 200 -> exists message, body = ErrorBody message).
Proof.
  assert (Hsent : sent (res w) = None) by (rewrite Hfresh; reflexivity).
  destruct (truthy (query_month req)) eqn:Hm;
    [destruct (truthy (query_year req)) eqn:Hy |].
  - destruct (resolve (query_month req) (parseInt (query_year req)))
      as [range | err] eqn:Hres.
    + destruct (storeUp w) eqn:Hup;
        [destruct range as [[s |] [e |]] |].
      * rewrite (getStatistics_resolved req w s e Hsent Hup Hm Hy Hres).
        world_simpl. rewrite Hfresh. cbn [statusCode fresh_response].
        do 3 eexists. split; [reflexivity |]. split; [reflexivity |]. settle.
      * destruct (getStatistics_find_fails req w _ Hsent Hm Hy Hres
                    (or_intror (or_introl eq_refl))) as [-> ->].
        do 3 eexists. split; [reflexivity |]. split; [reflexivity |]. settle.
      * destruct (getStatistics_find_fails req w _ Hsent Hm Hy Hres
                    (or_introl eq_refl)) as [-> ->].
        do 3 eexists. split; [reflexivity |]. split; [reflexivity |]. settle.
      * destruct (getStatistics_find_fails req w _ Hsent Hm Hy Hres
                    (or_introl eq_refl)) as [-> ->].
        do 3 eexists. split; [reflexivity |]. split; [reflexivity |]. settle.
      * destruct (getStatistics_find_fails req w _ Hsent Hm Hy Hres
                    (or_intror (or_intror Hup))) as [-> ->].
        do 3 eexists. split; [reflexivity |]. split; [reflexivity |]. settle.
    + rewrite (getStatistics_rejected req w err Hsent Hm Hy Hres). world_simpl.
      do 3 eexists. split; [reflexivity |]. split; [reflexivity |]. settle.
  - rewrite (getStatistics_missing req w Hsent (or_intror Hy)). world_simpl.
    do 3 eexists. split; [reflexivity |]. split; [reflexivity |]. settle.
  - rewrite (getStatistics_missing req w Hsent (or_introl Hm)). world_simpl.
    do 3 eexists. split; [reflexivity |]. split; [reflexivity |]. settle.
Qed.

Lemma statistics_reply_by_case_witness :
  exists ret code body,
    fst (getStatistics (request "Mar" "2022") (world_of march_2022)) = Return ret /\
    sent (res (snd (getStatistics (request "Mar" "2022") (world_of march_2022)))) =
      Some (code, body) /\
    (code = 200 \/ code = 400 \/ code = 500).
Proof.
  destruct (statistics_reply_by_case (request "Mar" "2022") (world_of march_2022)
              eq_refl) as (ret & code & body & H1 & H2 & _ & _ & H3 & _).
  exists ret, code, body. split; [exact H1 |]. split; [exact H2 | exact H3].
Defined.

(** *** What the read paths leave alone *)

Lemma keeps_ret {A} (a : A) : keeps_store (ret a).
Proof. intros w. split; reflexivity. Qed.

Lemma keeps_lift {A} (o : Outcome A) : keeps_store (lift o).
Proof. intros w. split; reflexivity. Qed.

Lemma keeps_bind {A B} (m : M A) (k : A -> M B) :
  keeps_store m -> (forall a, keeps_store (k a)) -> keeps_store (bind m k).
Proof.
  intros Hm Hk w. unfold bind. specialize (Hm w).
  destruct (m w) as [[a | e] w1]; cbn [snd] in *; [| exact Hm].
  destruct (Hk a w1) as [H1 H2]. destruct Hm as [H3 H4].
  split; congruence.
Qed.

Lemma keeps_try_catch {A} (body : M A) (handler : Error -> M A) :
  keeps_store body -> (forall e, keeps_store (handler e)) ->
  keeps_store (try_catch body handler).
Proof.
  intros Hb Hh w. unfold try_catch. specialize (Hb w).
  destruct (body w) as [[a | e] w1]; cbn [snd] in *; [exact Hb |].
  destruct (Hh e w1) as [H1 H2]. destruct Hb as [H3 H4].
  split; congruence.
Qed.

Lemma keeps_find (s e : Date) (flag : bool) : keeps_store (find s e flag).
Proof.
  intros w. unfold find.
  destruct s, e, (storeUp w) eqn:E; cbn [snd called docs storeUp]; auto.
Qed.

Lemma keeps_aggregate {A} (pipeline : list Doc -> A) : keeps_store (aggregate pipeline).
Proof.
  intros w. unfold aggregate.
  destruct (storeUp w) eqn:E; cbn [snd called docs storeUp]; auto.
Qed.

Lemma keeps_res_status (code : Z) : keeps_store (res_status code).
Proof. intros w. split; reflexivity. Qed.

Lemma keeps_res_json (body : Body) : keeps_store (res_json body).
Proof.
  intros w. unfold res_json. destruct (sent (res w)); split; reflexivity.
Qed.

Lemma keeps_Promise_all3 {A B C} (a : M A) (b : M B) (c : M C) :
  keeps_store a -> keeps_store b -> keeps_store c ->
  keeps_store (Promise_all3 a b c).
Proof.
  intros Ha Hb Hc w. unfold Promise_all3.
  specialize (Ha w). destruct (a w) as [oa w1]. cbn [snd] in Ha.
  specialize (Hb w1). destruct (b w1) as [ob w2]. cbn [snd] in Hb.
  specialize (Hc w2). destruct (c w2) as [oc w3]. cbn [snd] in Hc.
  destruct Ha, Hb, Hc.
  destruct oa, ob, oc; cbn [snd]; split; congruence.
Qed.

Lemma keeps_getStatistics (req : Request) : keeps_store (getStatistics req).
Proof.
  unfold getStatistics. apply keeps_try_catch.
  - destruct (negb (truthy (query_month req)) || negb (truthy (query_year req))).
    + repeat (apply keeps_bind; [| intros ?]);
        auto using keeps_res_status, keeps_res_json, keeps_ret.
    + repeat (apply keeps_bind; [| intros ?]);
        auto using keeps_lift, keeps_find, keeps_res_json, keeps_ret.
  - intros e. repeat (apply keeps_bind; [| intros ?]);
      auto using keeps_res_status, keeps_res_json, keeps_ret.
Qed.

Lemma keeps_getPriceRangeData (selectedMonth : value) (year : option number) :
  keeps_store (getPriceRangeData selectedMonth year).
Proof.
  unfold getPriceRangeData, getPriceRangeData_try.
  apply keeps_try_catch; [| intros e; apply keeps_ret].
  destruct (negb (truthy selectedMonth) || negb (truthy_year year));
    [apply keeps_ret |].
  repeat (apply keeps_bind; [| intros ?]);
    auto using keeps_lift, keeps_aggregate, keeps_ret.
Qed.

Lemma keeps_getCategoryData (selectedMonth : value) (year : option number) :
  keeps_store (getCategoryData selectedMonth year).
Proof.
  unfold getCategoryData, getCategoryData_try.
  apply keeps_try_catch; [| intros e; apply keeps_ret].
  destruct (negb (truthy selectedMonth) || negb (truthy_year year));
    [apply keeps_ret |].
  repeat (apply keeps_bind; [| intros ?]);
    auto using keeps_lift, keeps_aggregate, keeps_ret.
Qed.

(** X8: no read path writes to the store: on every request, in every world
    (whatever the state of the response, reachable store or not), the
    statistics handler, the two reducers, the combined handler and the
    listing handler leave the stored records as they were. *)
Theorem read_paths_keep_the_store (req : Request) (selectedMonth : value)
    (year : option number) (w : World) (reply : Listing.Reply) :
  docs (snd (getStatistics req w)) = docs w /\
  docs (snd (getPriceRangeData selectedMonth year w)) = docs w /\
  docs (snd (getCategoryData selectedMonth year w)) = docs w /\
  docs (snd (getCombinedData req w)) = docs w /\
  docs (fst (snd (Listing.listTransactions (w, reply)))) = docs w.
Proof.
  split; [apply keeps_getStatistics |].
  split; [apply keeps_getPriceRangeData |].
  split; [apply keeps_getCategoryData |].
  split.
  - assert (H : keeps_store (getCombinedData req)); [| apply H].
    unfold getCombinedData. apply keeps_try_catch.
    + destruct (negb (truthy (query_month req)) ||
                negb (truthy_number (parseInt (query_year req)))).
      * repeat (apply keeps_bind; [| intros ?]);
          auto using keeps_res_status, keeps_res_json.
      * apply keeps_bind.
        -- apply keeps_Promise_all3;
             auto using keeps_getStatistics, keeps_getPriceRangeData,
               keeps_getCategoryData.
        -- intros [[st pr] ca]. apply keeps_res_json.
    + intros e. repeat (apply keeps_bind; [| intros ?]);
        auto using keeps_res_status, keeps_res_json.
  - unfold Listing.listTransactions, Listing.try_catchL, Listing.bindL,
      Listing.on_store, Listing.find_all, Listing.reply_with_status,
      Listing.reply_json.
    cbn [fst snd].
    destruct (storeUp w); cbn [fst snd Listing.reply_sent];
      destruct (Listing.reply_sent reply); reflexivity.
Qed.

(** *** Totals of the histogram and of the category breakdown *)

Lemma one_bucket (d : Doc) :
  (if in_bucket 0 d then 1 else 0) + (if in_bucket 1 d then 1 else 0) +
  (if in_bucket 2 d then 1 else 0) + (if in_bucket 3 d then 1 else 0) +
  (if in_bucket 4 d then 1 else 0) + (if in_bucket 5 d then 1 else 0) = 1.
Proof.
  unfold in_bucket, bucket, priceRange.
  change (gt (price d) 1000) with (negb (lte (price d) 1000)).
  destruct (lte (price d) 50); [reflexivity |].
  destruct (lte (price d) 100); [reflexivity |].
  destruct (lte (price d) 200); [reflexivity |].
  destruct (lte (price d) 500); [reflexivity |].
  destruct (lte (price d) 1000); reflexivity.
Qed.

Lemma count_filter_cons {A} (f : A -> bool) (x : A) (l : list A) :
  Z.of_nat (List.length (filter f (x :: l))) =
  (if f x then 1 else 0) + Z.of_nat (List.length (filter f l)).
Proof.
  cbn [filter]. destruct (f x); cbn [List.length]; lia.
Qed.

Lemma bucket_counts_total (ds : list Doc) :
  total (map (fun i => count (filter (in_bucket i) ds)) [0; 1; 2; 3; 4; 5]) =
  count ds.
Proof.
  unfold total, count. cbn [map fold_right].
  induction ds as [| d ds IH]; [reflexivity |].
  rewrite !count_filter_cons. pose proof (one_bucket d).
  cbn [List.length]. lia.
Qed.

Lemma match_stage_proper (s e : Z) (ds : list Doc) :
  match_stage (Some s) (Some e) ds = filter (in_range s e) ds.
Proof. reflexivity. Qed.

Lemma filter_within (s e : Z) (within : Doc -> bool) (ds : list Doc) :
  (forall d, within d = true <-> dated_within s e d) ->
  filter (in_range s e) ds = filter within ds.
Proof.
  intros Hw. apply filter_ext. intros d.
  destruct (within d) eqn:E.
  - apply in_range_within, Hw. exact E.
  - destruct (in_range s e d) eqn:E'; [| reflexivity].
    apply in_range_within, Hw in E'. congruence.
Qed.

(** X9: every record of the interval is counted in exactly one bucket: on a
    request that resolves to a proper interval, with the store in reach,
    the six counts of the histogram add up to the number of stored records
    whose dateOfSale lies in [start, end). *)
Theorem histogram_counts_every_record (selectedMonth : value)
    (year : option number) (w : World) (s e : Z) (within : Doc -> bool)
    (Hmonth : truthy selectedMonth = true)
    (Hyear : truthy_year year = true)
    (Hrange : resolve selectedMonth (year_number year) =
              Return {| startDate := Some s; endDate := Some e |})
    (Hup : storeUp w = true)
    (Hwithin : forall d, within d = true <-> dated_within s e d) :
  exists counts,
    fst (getPriceRangeData selectedMonth year w) = Return {| data := counts |} /\
    total counts = count (filter within (docs w)).
Proof.
  rewrite getPriceRangeData_reply. unfold price_reply.
  rewrite Hmonth, Hyear, Hrange, Hup. cbn [negb orb fst].
  eexists. split; [reflexivity |].
  unfold histogram. cbn [startDate endDate]. rewrite match_stage_proper.
  rewrite bucket_counts_total, (filter_within s e within _ Hwithin). reflexivity.
Qed.

Lemma histogram_counts_every_record_witness :
  exists counts,
    fst (getPriceRangeData (VStr "Mar") (Some (Num 2022))
           (world_of march_2022_among_others)) =
      Return {| data := counts |} /\
    total counts = 3.
Proof.
  exact (histogram_counts_every_record (VStr "Mar") (Some (Num 2022))
           (world_of march_2022_among_others) 1646092800000 1648771200000
           (in_range 1646092800000 1648771200000)
           eq_refl eq_refl eq_refl eq_refl
           (in_range_within 1646092800000 1648771200000)).
Defined.

(** X10: the histogram and the statistics of one request agree: when every
    stored record carries a boolean sold flag, the six counts of the
    histogram add up to totalSoldItems + totalNotSoldItems. *)
Theorem histogram_agrees_with_statistics (req : Request) (w : World) (s e : Z)
    (Hfresh : res w = fresh_response)
    (Hup : storeUp w = true)
    (Hmonth : truthy (query_month req) = true)
    (Hyear : truthy_number (parseInt (query_year req)) = true)
    (Hrange : resolve (query_month req) (parseInt (query_year req)) =
              Return {| startDate := Some s; endDate := Some e |})
    (Hflags : forall d, In d (docs w) -> sold d <> None) :
  exists totalSales totalSoldItems totalNotSoldItems counts,
    sent (res (snd (getStatistics req w))) =
      Some (200, StatisticsBody totalSales totalSoldItems totalNotSoldItems) /\
    fst (getPriceRangeData (query_month req)
           (Some (parseInt (query_year req))) w) =
      Return {| data := counts |} /\
    total counts = totalSoldItems + totalNotSoldItems.
Proof.
  assert (Hsent : sent (res w) = None) by (rewrite Hfresh; reflexivity).
  rewrite (getStatistics_resolved req w s e Hsent Hup Hmonth
             (parseInt_truthy _ Hyear) Hrange).
  world_simpl. rewrite Hfresh. cbn [statusCode fresh_response].
  rewrite getPriceRangeData_reply. unfold price_reply.
  cbn [truthy_year year_number]. rewrite Hmonth, Hyear, Hrange, Hup.
  cbn [negb orb fst].
  do 4 eexists. split; [reflexivity |]. split; [reflexivity |].
  unfold histogram. cbn [startDate endDate]. rewrite match_stage_proper.
  rewrite bucket_counts_total. symmetry. apply partition_counts. exact Hflags.
Qed.

Lemma histogram_agrees_with_statistics_witness :
  exists totalSales totalSoldItems totalNotSoldItems counts,
    sent (res (snd (getStatistics (request "Mar" "2022") (world_of march_2022)))) =
      Some (200, StatisticsBody totalSales totalSoldItems totalNotSoldItems) /\
    fst (getPriceRangeData (VStr "Mar") (Some (Num 2022)) (world_of march_2022)) =
      Return {| data := counts |} /\
    total counts = totalSoldItems + totalNotSoldItems.
Proof.
  apply (histogram_agrees_with_statistics (request "Mar" "2022")
           (world_of march_2022) 1646092800000 1648771200000);
    try reflexivity.
  intros d Hd. cbn in Hd.
  destruct Hd as [<- | [<- | [<- | []]]]; discriminate.
Defined.

Lemma total_count_key (k : string) (groups : list Group) :
  total (map snd (count_key k groups)) = total (map snd groups) + 1.
Proof.
  unfold total. induction groups as [| [k' c] rest IH]; [reflexivity |].
  cbn [count_key]. destruct (String.eqb k' k); cbn [map snd fold_right] in *; lia.
Qed.

Lemma group_stage_keys (keys : list string) (acc : list Group) (key : string) :
  In key (map fst (fold_left (fun groups k => count_key k groups) keys acc)) <->
  In key keys \/ In key (map fst acc).
Proof.
  revert acc. induction keys as [| k keys IH]; intros acc; cbn [fold_left In].
  - tauto.
  - rewrite IH, keys_count_key.
    destruct (in_dec string_dec k (map fst acc)) as [Hin | Hn].
    + split; [tauto |]. intros [[-> | H] | H]; auto.
    + rewrite in_app_iff. cbn [In]. intuition congruence.
Qed.

Lemma group_stage_total (keys : list string) (acc : list Group) :
  total (map snd (fold_left (fun groups k => count_key k groups) keys acc)) =
  total (map snd acc) + Z.of_nat (List.length keys).
Proof.
  revert acc. induction keys as [| k keys IH]; intros acc; cbn [fold_left List.length].
  - lia.
  - rewrite IH, total_count_key. lia.
Qed.

(** X11: the category breakdown of a proper interval, with the store in
    reach: no category appears twice; the categories listed are exactly
    those of the stored records whose dateOfSale lies in [start, end);
    each row's count is the number of those records of that category, at
    least 1; and the counts add up to the number of those records. *)
Theorem category_breakdown_rows (selectedMonth : value) (year : option number)
    (w : World) (s e : Z) (within : Doc -> bool)
    (Hmonth : truthy selectedMonth = true)
    (Hyear : truthy_year year = true)
    (Hrange : resolve selectedMonth (year_number year) =
              Return {| startDate := Some s; endDate := Some e |})
    (Hup : storeUp w = true)
    (Hwithin : forall d, within d = true <-> dated_within s e d) :
  exists breakdown,
    fst (getCategoryData selectedMonth year w) = Return {| rows := breakdown |} /\
    NoDup (map fst breakdown) /\
    (forall c, In c (map fst breakdown) <->
               exists d, In d (docs w) /\ dated_within s e d /\ category d = c) /\
    (forall c n, In (c, n) breakdown ->
                 n = count (filter (fun d => within d && String.eqb c (category d))
                              (docs w)) /\
                 1 <= n) /\
    total (map snd breakdown) = count (filter within (docs w)).
Proof.
  rewrite getCategoryData_reply. unfold category_reply.
  rewrite Hmonth, Hyear, Hrange, Hup. cbn [negb orb fst].
  eexists. split; [reflexivity |].
  unfold categoryPipeline. cbn [startDate endDate]. rewrite match_stage_proper.
  rewrite (filter_within s e within _ Hwithin).
  set (matched := filter within (docs w)).
  assert (Hkeys : forall c, In c (map fst (group_stage (map category matched))) <->
                            exists d, In d matched /\ category d = c).
  { intros c. unfold group_stage. rewrite group_stage_keys. cbn [map In].
    rewrite in_map_iff. split.
    - intros [(d & Hd & Hin) | []]. exists d. auto.
    - intros (d & Hin & Hd). left. exists d. auto. }
  assert (Hnd : NoDup (map fst (group_stage (map category matched)))).
  { apply (group_stage_fold (map category matched) [] "" (NoDup_nil _)). }
  split; [exact Hnd |]. split; [| split].
  - intros c. rewrite Hkeys. subst matched. split.
    + intros (d & Hd & Hc). apply filter_In in Hd as [Hd Hw].
      exists d. split; [exact Hd |]. split; [apply Hwithin; exact Hw | exact Hc].
    + intros (d & Hd & Hw & Hc). exists d. split; [| exact Hc].
      apply filter_In. split; [exact Hd | apply Hwithin; exact Hw].
  - intros c n Hin.
    assert (Hn : n = count (filter (fun d => String.eqb c (category d)) matched)).
    { apply (assoc_In c n _ Hnd) in Hin.
      destruct (group_stage_fold (map category matched) [] c (NoDup_nil _)) as [_ Ht].
      fold (group_stage (map category matched)) in Ht.
      unfold tally in Ht. rewrite Hin in Ht. cbn [assoc] in Ht.
      rewrite filter_map_length in Ht. unfold count. lia. }
    assert (Hc : In c (map fst (group_stage (map category matched)))).
    { apply in_map_iff. exists (c, n). split; [reflexivity | exact Hin]. }
    apply Hkeys in Hc as (d & Hd & Hcat).
    assert (Hin' : In d (filter (fun d => String.eqb c (category d)) matched)).
    { apply filter_In. split; [exact Hd |]. apply String.eqb_eq. congruence. }
    assert (Hfilter : filter (fun d => String.eqb c (category d)) matched =
                      filter (fun d => within d && String.eqb c (category d)) (docs w)).
    { subst matched. clear. induction (docs w) as [| x xs IH]; [reflexivity |].
      cbn [filter]. destruct (within x); cbn [andb filter]; [| exact IH].
      destruct (String.eqb c (category x)); rewrite IH; reflexivity. }
    rewrite <- Hfilter. split; [exact Hn |].
    rewrite Hn. unfold count.
    destruct (filter (fun d => String.eqb c (category d)) matched);
      [contradiction | cbn [List.length]; lia].
  - unfold group_stage. rewrite group_stage_total, length_map. cbn. reflexivity.
Qed.

Lemma category_breakdown_rows_witness :
  exists breakdown,
    fst (getCategoryData (VStr "Mar") (Some (Num 2022))
           (world_of march_2022_among_others)) =
      Return {| rows := breakdown |} /\
    total (map snd breakdown) = 3.
Proof.
  destruct (category_breakdown_rows (VStr "Mar") (Some (Num 2022))
              (world_of march_2022_among_others) 1646092800000 1648771200000
              (in_range 1646092800000 1648771200000)
              eq_refl eq_refl eq_refl eq_refl
              (in_range_within 1646092800000 1648771200000))
    as (breakdown & H1 & _ & _ & _ & H2).
  exists breakdown. split; [exact H1 | exact H2].
Defined.

(** *** Reseeding and listing *)

Lemma validate_stored (r : RawDoc) (d : Doc) :
  validate r = Some d -> stored_as r d.
Proof.
  unfold validate, stored_as.
  destruct (raw_title r), (raw_description r), (raw_price r), (raw_category r),
    (raw_date_cast r), (raw_sold r), (raw_image r); try discriminate.
  destruct (isValidDate (raw_date_reparse r)); [| discriminate].
  intros [= <-]. cbn. repeat split; eauto.
Qed.

Lemma validate_all_stored (data : list RawDoc) (ds : list Doc) :
  validate_all data = Some ds -> Forall2 stored_as data ds.
Proof.
  revert ds. induction data as [| r rest IH]; intros ds; cbn [validate_all].
  - intros [= <-]. constructor.
  - destruct (validate r) as [d |] eqn:Hr; [| discriminate].
    destruct (validate_all rest) as [ds' |]; [| discriminate].
    intros [= <-]. constructor; [apply validate_stored; exact Hr | apply IH; reflexivity].
Qed.

Lemma seedDatabase_success (w : World) (data : list RawDoc) (ds : list Doc) :
  sent (res w) = None -> storeUp w = true -> validate_all data = Some ds ->
  seedDatabase (DataArray data) w =
  (Return tt,
   {| docs := ds; storeUp := true; storeCalls := S (S (storeCalls w));
      res := {| statusCode := 200;
                sent := Some (200, MessageBody "Database seeded successfully") |} |}).
Proof.
  intros Hsent Hup Hvalid.
  unfold seedDatabase, try_catch, bind, axios_get. run.
  rewrite Hvalid. run. reflexivity.
Qed.

(** X12: a reseed whose batch passes the schema replaces the contents of the
    store: whatever the store held, it then holds the records of the
    batch, in order and field by field, each with a proper date and a
    boolean sold flag, and the answer is 200; seeding the same batch
    again leaves the same contents. *)
Theorem reseed_replaces_contents (w : World) (data : list RawDoc) (ds : list Doc)
    (Hfresh : res w = fresh_response)
    (Hup : storeUp w = true)
    (Hvalid : validate_all data = Some ds) :
  fst (seedDatabase (DataArray data) w) = Return tt /\
  docs (snd (seedDatabase (DataArray data) w)) = ds /\
  sent (res (snd (seedDatabase (DataArray data) w))) =
    Some (200, MessageBody "Database seeded successfully") /\
  Forall2 stored_as data ds /\
  (forall d, In d ds -> dateOfSale d <> None /\ sold d <> None) /\
  docs (snd (seedDatabase (DataArray data)
               (next_request (snd (seedDatabase (DataArray data) w))))) = ds.
Proof.
  assert (Hsent : sent (res w) = None) by (rewrite Hfresh; reflexivity).
  rewrite (seedDatabase_success w data ds Hsent Hup Hvalid). cbn [fst snd].
  pose proof (validate_all_stored data ds Hvalid) as Hall.
  split; [reflexivity |]. split; [reflexivity |]. split; [reflexivity |].
  split; [exact Hall |]. split.
  - intros d Hd. clear - Hall Hd.
    induction Hall as [| r d' rest ds' Hrd _ IH]; [contradiction |].
    destruct Hd as [-> | Hd]; [| apply IH; exact Hd].
    destruct Hrd as (_ & _ & _ & _ & (t & _ & ->) & (b & _ & ->) & _).
    split; discriminate.
  - rewrite (seedDatabase_success _ data ds); [reflexivity | reflexivity | reflexivity | exact Hvalid].
Qed.

Lemma reseed_replaces_contents_witness :
  docs (snd (seedDatabase (DataArray [dated]) (world_of march_2022))) =
  [sample_doc 10 true 1646092800000].
Proof.
  exact (proj1 (proj2 (reseed_replaces_contents (world_of march_2022) [dated]
                          [sample_doc 10 true 1646092800000]
                          eq_refl eq_refl eq_refl))).
Defined.

(** X13: a reseed that fails before its delete phase leaves the store as it
    was: when the fetch fails (500) or the fetched payload is not an array
    (400) no call is made on the store at all, and when the store cannot
    be reached the answer is 500 and the contents are unchanged. *)
Theorem reseed_rejected_before_delete (w : World) (data : list RawDoc)
    (Hfresh : res w = fresh_response) :
  (sent (res (snd (seedDatabase FetchFailed w))) =
     Some (500, ErrorBody "Error seeding database") /\
   docs (snd (seedDatabase FetchFailed w)) = docs w /\
   storeCalls (snd (seedDatabase FetchFailed w)) = storeCalls w) /\
  (sent (res (snd (seedDatabase NotAnArray w))) =
     Some (400, ErrorBody "Invalid data format from API") /\
   docs (snd (seedDatabase NotAnArray w)) = docs w /\
   storeCalls (snd (seedDatabase NotAnArray w)) = storeCalls w) /\
  (storeUp w = false ->
   sent (res (snd (seedDatabase (DataArray data) w))) =
     Some (500, ErrorBody "Error seeding database") /\
   docs (snd (seedDatabase (DataArray data) w)) = docs w).
Proof.
  assert (Hsent : sent (res w) = None) by (rewrite Hfresh; reflexivity).
  split; [| split].
  - unfold seedDatabase, try_catch, bind, axios_get. run. repeat split; reflexivity.
  - unfold seedDatabase, try_catch, bind, axios_get. run. repeat split; reflexivity.
  - intros Hdown. unfold seedDatabase, try_catch, bind, axios_get. run.
    repeat split; reflexivity.
Qed.

Lemma reseed_rejected_before_delete_witness :
  docs (snd (seedDatabase NotAnArray (world_of march_2022))) = march_2022 /\
  sent (res (snd (seedDatabase NotAnArray (world_of march_2022)))) =
    Some (400, ErrorBody "Invalid data format from API").
Proof.
  destruct (reseed_rejected_before_delete (world_of march_2022) [] eq_refl)
    as (_ & (H1 & H2 & _) & _).
  split; [exact H2 | exact H1].
Defined.


Lemma listTransactions_run (w : World) :
  Listing.listTransactions (listing_request w) =
  (Return tt,
   (called w,
    if storeUp w
    then {| Listing.reply_status := 200;
            Listing.reply_sent :=
              Some (200, Listing.TransactionList (map Listing.sanitize (docs w))) |}
    else {| Listing.reply_status := 500;
            Listing.reply_sent :=
              Some (500, Listing.ErrorPayload "Error fetching transactions") |})).
Proof.
  unfold Listing.listTransactions, listing_request, Listing.try_catchL,
    Listing.bindL, Listing.on_store, Listing.find_all,
    Listing.reply_with_status, Listing.reply_json.
  cbn [fst snd]. destruct (storeUp w); reflexivity.
Qed.

(** X15: the listing returns every stored record, in store order: one
    transaction per record with the record's fields, a proper date kept
    as it is and a missing or invalid date replaced by null; when the
    store cannot be reached the answer is 500 "Error fetching
    transactions"; either way the handler does not throw. *)
Theorem listing_returns_every_record (w : World) :
  fst (Listing.listTransactions (listing_request w)) = Return tt /\
  (storeUp w = true ->
   exists listed,
     Listing.reply_sent (snd (snd (Listing.listTransactions (listing_request w)))) =
       Some (200, Listing.TransactionList listed) /\
     List.length listed = List.length (docs w) /\
     forall i d, nth_error (docs w) i = Some d ->
       exists t, nth_error listed i = Some t /\
         Listing.t_title t = title d /\
         Listing.t_description t = description d /\
         Listing.t_price t = price d /\
         Listing.t_category t = category d /\
         Listing.t_sold t = sold d /\
         Listing.t_image t = image d /\
         Listing.t_dateOfSale t =
           match dateOfSale d with
           | Some time => Listing.DateValue time
           | None => Listing.Null
           end) /\
  (storeUp w = false ->
   Listing.reply_sent (snd (snd (Listing.listTransactions (listing_request w)))) =
     Some (500, Listing.ErrorPayload "Error fetching transactions")).
Proof.
  rewrite listTransactions_run. cbn [fst snd].
  split; [reflexivity |]. split.
  - intros ->. cbn [Listing.reply_sent].
    exists (map Listing.sanitize (docs w)).
    split; [reflexivity |]. split; [apply length_map |].
    intros i d Hd. exists (Listing.sanitize d).
    split; [apply map_nth_error; exact Hd |].
    unfold Listing.sanitize, Listing.getTime. cbn.
    destruct (dateOfSale d); repeat split; reflexivity.
  - intros ->. reflexivity.
Qed.

Lemma sanitize_stored (r : RawDoc) (d : Doc) :
  stored_as r d -> listed_as r (Listing.sanitize d).
Proof.
  intros (H1 & H2 & H3 & H4 & (t & H5 & H6) & H7 & H8).
  unfold listed_as, Listing.sanitize, Listing.getTime. cbn.
  rewrite H6. repeat split; eauto.
Qed.

(** X16: reseeding and then listing gives back the batch: after a reseed
    whose batch passes the schema, the listing answers 200 with one
    transaction per fetched record, in the order of the batch, holding the
    fetched fields, every date being a proper date (none is null). *)
Theorem reseed_then_list (w : World) (data : list RawDoc) (ds : list Doc)
    (Hfresh : res w = fresh_response)
    (Hup : storeUp w = true)
    (Hvalid : validate_all data = Some ds) :
  exists listed,
    Listing.reply_sent
      (snd (snd (Listing.listTransactions
                   (listing_request (snd (seedDatabase (DataArray data) w)))))) =
      Some (200, Listing.TransactionList listed) /\
    Forall2 listed_as data listed.
Proof.
  assert (Hsent : sent (res w) = None) by (rewrite Hfresh; reflexivity).
  rewrite (seedDatabase_success w data ds Hsent Hup Hvalid). cbn [snd].
  rewrite listTransactions_run. cbn [snd storeUp docs Listing.reply_sent].
  eexists. split; [reflexivity |].
  pose proof (validate_all_stored data ds Hvalid) as Hall.
  clear - Hall.
  induction Hall as [| r d rest ds' Hrd _ IH]; cbn [map]; constructor.
  - apply sanitize_stored. exact Hrd.
  - exact IH.
Qed.

Lemma reseed_then_list_witness :
  exists listed,
    Listing.reply_sent
      (snd (snd (Listing.listTransactions
                   (listing_request
                      (snd (seedDatabase (DataArray [dated]) (world_of march_2022))))))) =
      Some (200, Listing.TransactionList listed) /\
    Forall2 listed_as [dated] listed.
Proof.
  exact (reseed_then_list (world_of march_2022) [dated]
           [sample_doc 10 true 1646092800000] eq_refl eq_refl eq_refl).
Defined.

(** X17: statistics after a reseed: once a batch that passes the schema has
    been seeded, a statistics request that resolves to an interval is
    answered 200 from the seeded records alone: totalSales is the double
    sum of the prices of the seeded records sold in [start, end), and the
    two counts add up to the number of seeded records whose dateOfSale
    lies in [start, end). *)
Theorem statistics_after_reseed (w : World) (data : list RawDoc) (ds : list Doc)
    (req : Request) (s e : Z) (within sold_within : Doc -> bool)
    (Hfresh : res w = fresh_response)
    (Hup : storeUp w = true)
    (Hvalid : validate_all data = Some ds)
    (Hmonth : truthy (query_month req) = true)
    (Hyear : truthy (query_year req) = true)
    (Hrange : resolve (query_month req) (parseInt (query_year req)) =
              Return {| startDate := Some s; endDate := Some e |})
    (Hwithin : forall d, within d = true <-> dated_within s e d)
    (Hsold : forall d, sold_within d = true <->
                       sold d = Some true /\ dated_within s e d) :
  exists totalSales totalSoldItems totalNotSoldItems,
    sent (res (snd (getStatistics req
                      (next_request (snd (seedDatabase (DataArray data) w)))))) =
      Some (200, StatisticsBody totalSales totalSoldItems totalNotSoldItems) /\
    totalSales = sum_price (filter sold_within ds) /\
    totalSoldItems = count (filter sold_within ds) /\
    totalSoldItems + totalNotSoldItems = count (filter within ds) /\
    Forall2 stored_as data ds.
Proof.
  assert (Hsent : sent (res w) = None) by (rewrite Hfresh; reflexivity).
  rewrite (seedDatabase_success w data ds Hsent Hup Hvalid).
  unfold next_request. cbn [snd docs storeUp storeCalls].
  rewrite (getStatistics_resolved req _ s e); try assumption; try reflexivity.
  world_simpl. cbn [statusCode fresh_response].
  pose proof (validate_all_stored data ds Hvalid) as Hall.
  do 3 eexists. split; [reflexivity |].
  rewrite (partition_of_filter true s e ds sold_within Hsold).
  split; [reflexivity |]. split; [reflexivity |]. split; [| exact Hall].
  rewrite <- (partition_of_filter true s e ds sold_within Hsold).
  rewrite <- (filter_within s e within ds Hwithin).
  apply partition_counts.
  intros d Hd. clear - Hall Hd.
  induction Hall as [| r d' rest ds' Hrd _ IH]; [contradiction |].
  destruct Hd as [-> | Hd]; [| apply IH; exact Hd].
  destruct Hrd as (_ & _ & _ & _ & _ & (b & _ & ->) & _). discriminate.
Qed.

Lemma statistics_after_reseed_witness :
  exists totalSales totalSoldItems totalNotSoldItems,
    sent (res (snd (getStatistics (request "Mar" "2022")
                      (next_request
                         (snd (seedDatabase (DataArray [dated; timestamped])
                                 (world_of march_2022))))))) =
      Some (200, StatisticsBody totalSales totalSoldItems totalNotSoldItems) /\
    totalSales = Finite 20 /\
    totalSoldItems + totalNotSoldItems = 2.
Proof.
  destruct (statistics_after_reseed (world_of march_2022) [dated; timestamped]
              [sample_doc 10 true 1646092800000; sample_doc 10 true 1646092800000]
              (request "Mar" "2022") 1646092800000 1648771200000
              (in_range 1646092800000 1648771200000)
              (fun d => in_range 1646092800000 1648771200000 d && sold_is true d)
              eq_refl eq_refl eq_refl eq_refl eq_refl eq_refl
              (in_range_within 1646092800000 1648771200000))
    as (ts & a & b & H1 & H2 & _ & H3 & _).
  - intros d. rewrite andb_true_iff, in_range_within. unfold sold_is.
    destruct (sold d) as [[|] |]; cbn; intuition congruence.
  - exists ts, a, b. split; [exact H1 |]. split; [| exact H3].
    rewrite H2. vm_compute. reflexivity.
Defined.

